(** * FastSCNN / train.py: the training engine loop and its metric bookkeeping

    A shallow embedding of [train.py]: the hooks registered on the engine
    ([on_sample], [on_forward], [on_start_epoch], [on_end_epoch]), the batch
    [processor], the module-level state they mutate ([best_accuracy],
    [results], the three meters, the scheduler) and the start-up code of
    [__main__].  Python floats are idealised as rationals [Q]; the neural
    network, the optimiser, the scheduler, the data loaders and the meters are
    collaborators of the script and enter as parameters of a section. *)

From Stdlib Require Import String Ascii QArith ZArith Bool Arith Lia List.
From Stdlib Require Import DecimalString.
Import ListNotations.

Local Open Scope nat_scope.
Local Notation "a +++ b" := (String.append a b) (at level 60, right associativity).

(** ** Command-line options (lines 112-122) *)

(** [--data_type], restricted by [choices=['ucf101', 'hmdb51']]. *)
Inductive DataType := ucf101 | hmdb51.

(** [--model_type], restricted by
    [choices=['stts-a', 'stts', 'r2plus1d', 'c3d']]. *)
Inductive ModelType := stts_a | stts | r2plus1d | c3d.

Definition data_type_str (d : DataType) : string :=
  match d with ucf101 => "ucf101" | hmdb51 => "hmdb51" end.

Definition model_type_str (m : ModelType) : string :=
  match m with
  | stts_a => "stts-a" | stts => "stts" | r2plus1d => "r2plus1d" | c3d => "c3d"
  end.

(** [opt = parser.parse_args()]; [gpu_ids] is kept as the list
    [[int(gpu) for gpu in GPU_IDS.split(',')]] of line 122. *)
Record Options := mkOptions {
  data_type : DataType;
  gpu_ids : list Z;
  model_type : ModelType;
  batch_size : Z;
  num_epochs : Z
}.

(** ** Paths written by [on_end_epoch] *)

(** ['epochs/{}_{}.pth'.format(DATA_TYPE, MODEL_TYPE)] (lines 84, 86). *)
Definition checkpoint_path (d : DataType) (m : ModelType) : string :=
  "epochs/" +++ data_type_str d +++ "_" +++ model_type_str m +++ ".pth".

(** ['statistics/{}_{}_results.csv'.format(DATA_TYPE, MODEL_TYPE)]
    (line 108). *)
Definition statistics_path (d : DataType) (m : ModelType) : string :=
  "statistics/" +++ data_type_str d +++ "_" +++ model_type_str m
                +++ "_results.csv".

(** The file-name pattern [{data_type}_{model_type}_results.csv]. *)
Definition results_file_name (d : DataType) (m : ModelType) : string :=
  data_type_str d +++ "_" +++ model_type_str m +++ "_results.csv".

(** The last component of a slash-separated path. *)
Fixpoint file_name_from (acc : string) (p : string) : string :=
  match p with
  | EmptyString => acc
  | String c rest =>
      if Ascii.eqb c "/"%char then file_name_from rest rest
      else file_name_from acc rest
  end.

Definition file_name (p : string) : string := file_name_from p p.

(** ** The [results] dictionary (lines 123-125) *)

(** A Python dict keeps its keys in insertion order, and [pd.DataFrame] takes
    its columns in that order: an association list. *)
Definition Results := list (string * list Q).

Definition result_keys : list string :=
  [ "train_loss"; "train_top1_accuracy"; "train_top5_accuracy";
    "val_loss"; "val_top1_accuracy"; "val_top5_accuracy";
    "test_loss"; "test_top1_accuracy"; "test_top5_accuracy" ]%string.

Definition empty_results : Results := map (fun k => (k, [])) result_keys.

(** [d[key].append(v)]; [None] stands for the [KeyError] of a missing key. *)
Fixpoint dict_append (key : string) (v : Q) (d : Results) : option Results :=
  match d with
  | [] => None
  | (k, col) :: rest =>
      if String.eqb k key then Some ((k, col ++ [v]) :: rest)
      else match dict_append key v rest with
           | Some rest' => Some ((k, col) :: rest')
           | None => None
           end
  end.

(** [pd.DataFrame(data=results, index=...)]: one row per index entry; pandas
    refuses columns whose length differs from the index ([None]). *)
Record DataFrame := mkDataFrame {
  df_index : list nat;
  df_columns : list (string * list Q)
}.

Definition data_frame (data : Results) (index : list nat) : option DataFrame :=
  if forallb (fun kc => length (snd kc) =? length index) data
  then Some (mkDataFrame index data) else None.

(** One row of a frame: the index entry and the cell of every column. *)
Definition df_row (df : DataFrame) (i : nat) : nat * list (string * Q) :=
  (nth i (df_index df) 0,
   map (fun kc => (fst kc, nth i (snd kc) 0%Q)) (df_columns df)).

Definition df_rows (df : DataFrame) : list (nat * list (string * Q)) :=
  map (df_row df) (seq 0 (length (df_index df))).

(** [range(1, n + 1)]. *)
Definition range1 (n : nat) : list nat := seq 1 n.

(** ** Observable events *)

Inductive Phase := Train | Val | Test.

Definition phase_name (ph : Phase) : string :=
  match ph with Train => "train" | Val => "val" | Test => "test" end.

Definition phase_eqb (a b : Phase) : bool :=
  match a, b with
  | Train, Train | Val, Val | Test, Test => true
  | _, _ => false
  end.

(** The calls the script makes on its collaborators, in program order.
    [EvCheckpointDecision] marks the evaluation of the guard of line 82. *)
Inductive Event :=
| EvResetMeters
| EvPhaseBegin (ph : Phase)
| EvForward (training no_grad : bool)
| EvZeroGrad
| EvBackward
| EvOptimizerStep
| EvPhaseEnd (ph : Phase)
| EvPlot (title : string) (epoch : nat) (y : Q) (name : string)
| EvHeatmap (ph : Phase)
| EvPrint (ph : Phase) (epoch : nat) (loss top1 top5 : Q)
| EvCheckpointDecision (save : bool)
| EvSave (path : string)
| EvSchedulerStep (loss : Q)
| EvToCsv (path : string).

Definition is_gradient_event (e : Event) : bool :=
  match e with
  | EvZeroGrad | EvBackward | EvOptimizerStep => true
  | _ => false
  end.

Definition is_save (e : Event) : bool :=
  match e with EvSave _ => true | _ => false end.

Definition is_scheduler_step (e : Event) : bool :=
  match e with EvSchedulerStep _ => true | _ => false end.

Definition is_phase_begin (e : Event) : bool :=
  match e with EvPhaseBegin _ => true | _ => false end.

(** The events that open or close a validation or a test pass. *)
Definition is_eval_marker (e : Event) : bool :=
  match e with
  | EvPhaseBegin Val | EvPhaseBegin Test
  | EvPhaseEnd Val | EvPhaseEnd Test => true
  | _ => false
  end.

Definition begins_test (e : Event) : bool :=
  match e with EvPhaseBegin Test => true | _ => false end.

(** Every pass of a log is opened right after a call of [reset_meters]. *)
Definition reset_before_phases (t : list Event) : Prop :=
  forall pre ph post,
    t = pre ++ EvPhaseBegin ph :: post ->
    exists pre', pre = pre' ++ [EvResetMeters].

Definition is_decision (e : Event) : bool :=
  match e with EvCheckpointDecision _ => true | _ => false end.

Definition is_to_csv (e : Event) : bool :=
  match e with EvToCsv _ => true | _ => false end.

Inductive Exception :=
| ValueError (msg : string)
| KeyError (key : string)
| IndexError
| RuntimeError (msg : string).

(** [q > b] on Python numbers. *)
Definition Qgtb (q b : Q) : bool := negb (Qle_bool q b).

(** ** The collaborators of the script *)

(** Tensors, model parameters and the private states of the optimiser, the
    scheduler and the three meters are opaque to the script; it only calls
    the operations below. *)
Class Collaborators := {
  Data : Type;
  Labels : Type;
  Output : Type;
  Params : Type;
  OptState : Type;
  SchedState : Type;
  LossSt : Type;
  AccSt : Type;
  ConfSt : Type;

  (** [model(data)] under the mode set by [model.train(training)], and
      [nn.CrossEntropyLoss()]. *)
  model_forward : Params -> bool -> Data -> Output;
  loss_criterion : Output -> Labels -> Q;

  (** One update of [optim.Adam] from the gradients of a batch, and
      [ReduceLROnPlateau.step], which may rewrite the optimiser's rate. *)
  optimizer_update : OptState -> Params -> Data -> Labels -> OptState * Params;
  plateau_step : Q -> SchedState -> OptState -> SchedState * OptState;

  (** [tnt.meter.AverageValueMeter]: [value()] is a pair read at [[0]]. *)
  loss_reset : LossSt -> LossSt;
  loss_add : Q -> LossSt -> LossSt;
  loss_value : LossSt -> Q * Q;

  (** [tnt.meter.ClassErrorMeter(topk=[1, 5], accuracy=True)];
      [acc_value_at s k] is the accumulated percentage for one [k]. *)
  acc_reset : AccSt -> AccSt;
  acc_add : Output -> Labels -> AccSt -> AccSt;
  acc_value_at : AccSt -> nat -> Q;

  (** [tnt.meter.ConfusionMeter(NUM_CLASS, normalized=True)]; its value only
      goes to the heat-map loggers. *)
  conf_reset : ConfSt -> ConfSt;
  conf_add : Output -> Labels -> ConfSt -> ConfSt
}.

(** ** The script *)

Section Script.

Context {C : Collaborators}.

(** [topk=[1, 5]] (line 153). *)
Definition topk : list nat := [1; 5].

(** Modelled from the spec: the class [ClassErrorMeter] is not part of
    [train.py]; its [value()] "returns a sequence indexed by the k-list
    order", the map of the per-k reading over [topk]. *)
Definition acc_value (s : AccSt) : list Q := map (acc_value_at s) topk.

Definition Batch : Type := Data * Labels.
Definition Sample : Type := Data * Labels * bool.
Definition Loader : Type := list Batch.

(** What [torch.save] and [to_csv] leave on disk. *)
Inductive File :=
| CheckpointFile (state_dict : Params)
| CsvFile (index_label : string) (frame : DataFrame).

Definition FS := list (string * File).

(** Writing replaces the file of that path. *)
Definition fs_write (path : string) (f : File) (fs : FS) : FS :=
  (path, f) :: filter (fun pf => negb (String.eqb (fst pf) path)) fs.

Fixpoint fs_read (path : string) (fs : FS) : option File :=
  match fs with
  | [] => None
  | (p, f) :: rest => if String.eqb p path then Some f else fs_read path rest
  end.

(** The mutable state of the process: the model and its optimiser, the
    module-level globals of [train.py], the disk and the event log. *)
Record World := mkWorld {
  params : Params;
  opt_state : OptState;
  sched_state : SchedState;
  training : bool;
  grad_enabled : bool;
  meter_loss : LossSt;
  meter_accuracy : AccSt;
  meter_confusion : ConfSt;
  best_accuracy : Q;
  results : Results;
  files : FS;
  trace : list Event
}.

Definition set_params v w :=
  mkWorld v (opt_state w) (sched_state w) (training w) (grad_enabled w)
    (meter_loss w) (meter_accuracy w) (meter_confusion w) (best_accuracy w)
    (results w) (files w) (trace w).
Definition set_opt_state v w :=
  mkWorld (params w) v (sched_state w) (training w) (grad_enabled w)
    (meter_loss w) (meter_accuracy w) (meter_confusion w) (best_accuracy w)
    (results w) (files w) (trace w).
Definition set_sched_state v w :=
  mkWorld (params w) (opt_state w) v (training w) (grad_enabled w)
    (meter_loss w) (meter_accuracy w) (meter_confusion w) (best_accuracy w)
    (results w) (files w) (trace w).
Definition set_training v w :=
  mkWorld (params w) (opt_state w) (sched_state w) v (grad_enabled w)
    (meter_loss w) (meter_accuracy w) (meter_confusion w) (best_accuracy w)
    (results w) (files w) (trace w).
Definition set_grad_enabled v w :=
  mkWorld (params w) (opt_state w) (sched_state w) (training w) v
    (meter_loss w) (meter_accuracy w) (meter_confusion w) (best_accuracy w)
    (results w) (files w) (trace w).
Definition set_meter_loss v w :=
  mkWorld (params w) (opt_state w) (sched_state w) (training w)
    (grad_enabled w) v (meter_accuracy w) (meter_confusion w)
    (best_accuracy w) (results w) (files w) (trace w).
Definition set_meter_accuracy v w :=
  mkWorld (params w) (opt_state w) (sched_state w) (training w)
    (grad_enabled w) (meter_loss w) v (meter_confusion w)
    (best_accuracy w) (results w) (files w) (trace w).
Definition set_meter_confusion v w :=
  mkWorld (params w) (opt_state w) (sched_state w) (training w)
    (grad_enabled w) (meter_loss w) (meter_accuracy w) v
    (best_accuracy w) (results w) (files w) (trace w).
Definition set_best_accuracy v w :=
  mkWorld (params w) (opt_state w) (sched_state w) (training w)
    (grad_enabled w) (meter_loss w) (meter_accuracy w) (meter_confusion w)
    v (results w) (files w) (trace w).
Definition set_results v w :=
  mkWorld (params w) (opt_state w) (sched_state w) (training w)
    (grad_enabled w) (meter_loss w) (meter_accuracy w) (meter_confusion w)
    (best_accuracy w) v (files w) (trace w).
Definition set_files v w :=
  mkWorld (params w) (opt_state w) (sched_state w) (training w)
    (grad_enabled w) (meter_loss w) (meter_accuracy w) (meter_confusion w)
    (best_accuracy w) (results w) v (trace w).
Definition set_trace v w :=
  mkWorld (params w) (opt_state w) (sched_state w) (training w)
    (grad_enabled w) (meter_loss w) (meter_accuracy w) (meter_confusion w)
    (best_accuracy w) (results w) (files w) v.

Definition emit (e : Event) (w : World) : World :=
  set_trace (trace w ++ [e]) w.

(** *** Statements that may raise: a state-and-exception monad *)

Inductive Result (A : Type) :=
| Done (a : A) (w : World)
| Raised (e : Exception) (w : World).
Arguments Done {A} a w.
Arguments Raised {A} e w.

Definition M (A : Type) : Type := World -> Result A.

Definition ret {A} (a : A) : M A := fun w => Done a w.

Definition bind {A B} (c : M A) (k : A -> M B) : M B :=
  fun w => match c w with
           | Done a w' => k a w'
           | Raised e w' => Raised e w'
           end.

Definition raise {A} (e : Exception) : M A := fun w => Raised e w.

(** A statement that cannot raise. *)
Definition step (f : World -> World) : M unit := fun w => Done tt (f w).

Definition get {A} (f : World -> A) : M A := fun w => Done (f w) w.

Notation "x <- c ;; k" := (bind c (fun x => k))
  (at level 61, c at next level, right associativity).
Notation "c ;; k" := (bind c (fun _ => k))
  (at level 61, right associativity).

(** [xs[i]] on a Python list. *)
Definition index {A} (xs : list A) (i : nat) : M A :=
  match nth_error xs i with
  | Some x => ret x
  | None => raise IndexError
  end.

(** *** [processor], [on_sample], [reset_meters], [on_forward]
    (lines 20-45) *)

Definition processor (sample : Sample) (w : World) : Q * Output * World :=
  let '(data, labels, training) := sample in
  let w1 := set_training training w in
  let classes := model_forward (params w1) training data in
  let loss := loss_criterion classes labels in
  (loss, classes, emit (EvForward training (negb (grad_enabled w1))) w1).

(** [state['sample'].append(state['train'])]. *)
Definition on_sample (sample : Batch) (train : bool) : Sample :=
  (fst sample, snd sample, train).

Definition reset_meters (w : World) : World :=
  let w1 := set_meter_accuracy (acc_reset (meter_accuracy w)) w in
  let w2 := set_meter_loss (loss_reset (meter_loss w1)) w1 in
  let w3 := set_meter_confusion (conf_reset (meter_confusion w2)) w2 in
  emit EvResetMeters w3.

(** [state['sample'][1]] is the label batch. *)
Definition on_forward (loss : Q) (output : Output) (sample : Sample)
    (w : World) : World :=
  let labels := snd (fst sample) in
  let w1 := set_meter_accuracy (acc_add output labels (meter_accuracy w)) w in
  let w2 :=
    set_meter_confusion (conf_add output labels (meter_confusion w1)) w1 in
  set_meter_loss (loss_add loss (meter_loss w2)) w2.

(** *** The engine ([torchnet.engine.Engine])

    Modelled from the spec: the class [Engine] is imported, not defined in
    [train.py].  Section 4.3 (Phase Runner): "For each batch: invoke Batch
    Processor; if training flag is set, perform a gradient step (zero
    gradients, backpropagate loss, optimizer step) ... After each batch,
    feed (predictions, labels) into the Accuracy and Confusion
    Accumulators, and the loss value into the Loss Accumulator."  The
    hooks are the ones installed at lines 163-166. *)

Section Engine.
Variable h_on_sample : Batch -> bool -> Sample.
Variable h_on_forward : Q -> Output -> Sample -> World -> World.
Variable network : Sample -> World -> Q * Output * World.

Definition gradient_step (sample : Sample) (w : World) : World :=
  let '(data, labels, _) := sample in
  let w1 := emit EvBackward (emit EvZeroGrad w) in
  let '(o, p) := optimizer_update (opt_state w1) (params w1) data labels in
  emit EvOptimizerStep (set_params p (set_opt_state o w1)).

Definition run_batch (train : bool) (w : World) (b : Batch) : World :=
  let sample := h_on_sample b train in
  let '(loss, output, w1) := network sample w in
  let w2 := if train then gradient_step sample w1 else w1 in
  h_on_forward loss output sample w2.

(** One pass over a loader; [ph] names the split for the event log. *)
Definition run_phase (ph : Phase) (train : bool) (iterator : Loader)
    (w : World) : World :=
  emit (EvPhaseEnd ph)
    (fold_left (run_batch train) iterator (emit (EvPhaseBegin ph) w)).

(** [engine.test(network, iterator)]: the training flag is false. *)
Definition engine_test (ph : Phase) (iterator : Loader) : World -> World :=
  run_phase ph false iterator.

(** [engine.train(network, iterator, maxepoch, optimizer)]: the epoch
    counter starts at 0 and is incremented before the end-of-epoch hook,
    so the first completed epoch is epoch 1; [remaining] is
    [maxepoch - epoch]. *)
Fixpoint train_loop (h_on_start_epoch : World -> World)
    (h_on_end_epoch : nat -> M unit) (iterator : Loader)
    (remaining epoch : nat) : M unit :=
  match remaining with
  | O => ret tt
  | S remaining' =>
      step h_on_start_epoch ;;
      step (run_phase Train true iterator) ;;
      h_on_end_epoch (S epoch) ;;
      train_loop h_on_start_epoch h_on_end_epoch iterator
        remaining' (S epoch)
  end.

Definition engine_train (h_on_start_epoch : World -> World)
    (h_on_end_epoch : nat -> M unit) (iterator : Loader)
    (maxepoch : Z) : M unit :=
  train_loop h_on_start_epoch h_on_end_epoch iterator
    (Z.to_nat maxepoch) 0.
End Engine.

(** [with torch.no_grad(): body]: gradients are off inside, and the
    previous mode is restored on exit. *)
Definition with_no_grad (body : World -> World) (w : World) : World :=
  let prev := grad_enabled w in
  set_grad_enabled prev (body (set_grad_enabled false w)).

(** *** The hooks that read the module-level globals set by [__main__] *)

Class Globals := {
  DATA_TYPE : DataType;
  MODEL_TYPE : ModelType;
  device_ids : list Z;
  train_loader : Loader;
  val_loader : Loader;
  test_loader : Loader
}.

Section Hooks.

Context {G : Globals}.

(** [on_start_epoch] (lines 48-50); wrapping the iterator in [tqdm] only
    draws a progress bar. *)
Definition on_start_epoch (w : World) : World := reset_meters w.

Definition phase_title (ph : Phase) : string :=
  match ph with
  | Train => "Training" | Val => "Valing" | Test => "Testing"
  end.

(** The block repeated for each split (lines 54-62, 70-78, 96-104): three
    line plots, the confusion heat map, three appends to [results] and the
    printed summary. *)
Definition results_append (key : string) (v : Q) : M unit :=
  fun w => match dict_append key v (results w) with
           | Some r => Done tt (set_results r w)
           | None => Raised (KeyError key) w
           end.

Definition log_phase (ph : Phase) (epoch : nat) : M unit :=
  loss <- get (fun w => fst (loss_value (meter_loss w))) ;;
  top1 <- (fun w => index (acc_value (meter_accuracy w)) 0 w) ;;
  top5 <- (fun w => index (acc_value (meter_accuracy w)) 1 w) ;;
  step (emit (EvPlot "Loss" epoch loss (phase_name ph))) ;;
  step (emit (EvPlot "Top1 Accuracy" epoch top1 (phase_name ph))) ;;
  step (emit (EvPlot "Top5 Accuracy" epoch top5 (phase_name ph))) ;;
  step (emit (EvHeatmap ph)) ;;
  results_append (phase_name ph +++ "_loss") loss ;;
  results_append (phase_name ph +++ "_top1_accuracy") top1 ;;
  results_append (phase_name ph +++ "_top5_accuracy") top5 ;;
  step (emit (EvPrint ph epoch loss top1 top5)).

(** [torch.save(state_dict, path)]. *)
Definition torch_save (state_dict : Params) (path : string)
    (w : World) : World :=
  emit (EvSave path)
    (set_files (fs_write path (CheckpointFile state_dict) (files w)) w).

(** Lines 80-87: "save best model".  Under [nn.DataParallel] the weights
    are those of [model.module]; both branches write the same parameters
    to the same path. *)
Definition save_best_model : M unit :=
  top1 <- (fun w => index (acc_value (meter_accuracy w)) 0 w) ;;
  best <- get best_accuracy ;;
  if Qgtb top1 best then
    step (emit (EvCheckpointDecision true)) ;;
    (if 1 <? length device_ids
     then step (fun w =>
                  torch_save (params w)
                    (checkpoint_path DATA_TYPE MODEL_TYPE) w)
     else step (fun w =>
                  torch_save (params w)
                    (checkpoint_path DATA_TYPE MODEL_TYPE) w)) ;;
    top1' <- (fun w => index (acc_value (meter_accuracy w)) 0 w) ;;
    step (set_best_accuracy top1')
  else
    step (emit (EvCheckpointDecision false)).

(** Line 89: [scheduler.step(meter_loss.value()[0])]. *)
Definition scheduler_step : M unit :=
  loss <- get (fun w => fst (loss_value (meter_loss w))) ;;
  step (fun w =>
          let '(s, o) := plateau_step loss (sched_state w) (opt_state w) in
          emit (EvSchedulerStep loss)
            (set_opt_state o (set_sched_state s w))).

(** Lines 106-108: the frame is rebuilt from the whole of [results] and
    written over the statistics file. *)
Definition save_statistics (epoch : nat) : M unit :=
  fun w =>
    match data_frame (results w) (range1 epoch) with
    | None => Raised (ValueError "Length of values does not match length of index") w
    | Some df =>
        let path := statistics_path DATA_TYPE MODEL_TYPE in
        Done tt (emit (EvToCsv path)
                   (set_files (fs_write path (CsvFile "epoch" df) (files w))
                      w))
    end.

(** [on_end_epoch] (lines 53-108); [epoch] is [state['epoch']]. *)
Definition on_end_epoch (epoch : nat) : M unit :=
  log_phase Train epoch ;;
  step reset_meters ;;
  step (with_no_grad
          (engine_test on_sample on_forward processor Val val_loader)) ;;
  log_phase Val epoch ;;
  save_best_model ;;
  scheduler_step ;;
  step reset_meters ;;
  step (with_no_grad
          (engine_test on_sample on_forward processor Test test_loader)) ;;
  log_phase Test epoch ;;
  save_statistics epoch.

(** Line 168, with the hooks of lines 163-166. *)
Definition train (maxepoch : Z) : M unit :=
  engine_train on_sample on_forward processor
    on_start_epoch on_end_epoch train_loader maxepoch.

End Hooks.

(** *** [__main__] (lines 111-168) *)

(** [utils.load_data], the size of [label2index], the three model
    classes, the constructors of the optimiser, the scheduler and the
    meters, [model.to(device)] (which may raise),
    [torch.cuda.device_count()] and the disk before the run. *)
Class Startup := {
  load_data : DataType -> Z -> Loader * Loader * Loader;
  num_class : Loader -> nat;
  STTS : nat -> ModelType -> Params;
  R2Plus1D : nat -> Params;
  C3D : nat -> Params;
  new_optimizer : Params -> OptState;
  new_scheduler : OptState -> SchedState;
  new_loss_meter : LossSt;
  new_accuracy_meter : AccSt;
  new_confusion_meter : nat -> ConfSt;
  to_device : Params -> Z -> Exception + Params;
  device_count : nat;
  disk : FS
}.

Context {S : Startup}.

(** [str(n)] for a length. *)
Definition str_of_nat (n : nat) : string :=
  NilZero.string_of_uint (Nat.to_uint n).

(** Lines 111-166: everything before the call of [engine.train].  The
    result is the set of globals the hooks read and the world the run
    starts in; the meters and loggers of lines 151-161 are built after the
    device check, and nothing reads them before. *)
Definition setup (opt : Options) : Result Globals :=
  let DATA_TYPE := data_type opt in
  let BATCH_SIZE := batch_size opt in
  let MODEL_TYPE := model_type opt in
  let device_ids := gpu_ids opt in
  let results := empty_results in
  let best_accuracy := 0%Q in
  let '(train_loader, val_loader, test_loader) :=
    load_data DATA_TYPE BATCH_SIZE in
  let NUM_CLASS := num_class train_loader in
  let model :=
    match MODEL_TYPE with
    | stts_a | stts => STTS NUM_CLASS MODEL_TYPE
    | r2plus1d => R2Plus1D NUM_CLASS
    | c3d => C3D NUM_CLASS
    end in
  let optimizer := new_optimizer model in
  let scheduler := new_scheduler optimizer in
  let globals :=
    Build_Globals DATA_TYPE MODEL_TYPE device_ids
      train_loader val_loader test_loader in
  let w0 :=
    mkWorld model optimizer scheduler true true
      new_loss_meter new_accuracy_meter (new_confusion_meter NUM_CLASS)
      best_accuracy results disk [] in
  match device_ids with
  | [] => Raised IndexError w0
  | d0 :: _ =>
      match to_device model d0 with
      | inl e => Raised e w0
      | inr model' =>
          let w1 := set_params model' w0 in
          if 1 <? length device_ids then
            if length device_ids <=? device_count then
              Done globals w1
            else
              Raised
                (ValueError ("the machine don't have "
                             +++ str_of_nat (length device_ids) +++ " gpus"))
                w1
          else
            Done globals w1
      end
  end.

(** Line 168: [engine.train(processor, train_loader,
    maxepoch=NUM_EPOCH, optimizer=optimizer)]. *)
Definition main (opt : Options) : Result unit :=
  match setup opt with
  | Done globals w => train (G := globals) (num_epochs opt) w
  | Raised e w => Raised e w
  end.

End Script.

Arguments Done {C A} a w.
Arguments Raised {C A} e w.

Notation "x <- c ;; k" := (bind c (fun x => k))
  (at level 61, c at next level, right associativity).
Notation "c ;; k" := (bind c (fun _ => k))
  (at level 61, right associativity).

(** ** Reading a run *)

Section Readings.

Context {C : Collaborators} {G : Globals}.

(** The world a computation stops in, completed or not. *)
Definition final {A} (r : Result A) : World :=
  match r with Done _ w => w | Raised _ w => w end.

Definition completed {A} (r : Result A) : bool :=
  match r with Done _ _ => true | Raised _ _ => false end.

(** The world after [n] epochs of [train]. *)
Definition world_after (n : nat) (w0 : World) : World :=
  final (train (Z.of_nat n) w0).

(** The training phase of one epoch: [on_start_epoch], then the pass over
    [train_loader]. *)
Definition train_phase (w : World) : World :=
  run_phase on_sample on_forward processor Train true train_loader
    (on_start_epoch w).

(** One iteration of the loop of [engine.train]; [e] epochs are done. *)
Definition epoch_body (e : nat) : M unit :=
  step on_start_epoch ;;
  step (run_phase on_sample on_forward processor Train true train_loader) ;;
  on_end_epoch (S e).

(** The events a computation added to the log. *)
Definition new_events (w w' : World) : list Event :=
  skipn (length (trace w)) (trace w').

(** The events of epoch [k + 1] of a run started in [w0]. *)
Definition epoch_events (w0 : World) (k : nat) : list Event :=
  new_events (world_after k w0) (world_after (S k) w0).

(** The outputs and the loss of an evaluation batch under parameters [p]:
    [processor] with the training flag false. *)
Definition eval_output (p : Params) (b : Batch) : Output :=
  model_forward p false (fst b).

Definition eval_loss (p : Params) (b : Batch) : Q :=
  loss_criterion (eval_output p b) (snd b).

(** The meters after the batches of a loader were added to them. *)
Definition fed_loss (p : Params) (loader : Loader) (m : LossSt) : LossSt :=
  fold_left (fun m b => loss_add (eval_loss p b) m) loader m.

Definition fed_accuracy (p : Params) (loader : Loader) (m : AccSt) : AccSt :=
  fold_left (fun m b => acc_add (eval_output p b) (snd b) m) loader m.

Definition fed_confusion (p : Params) (loader : Loader) (m : ConfSt)
    : ConfSt :=
  fold_left (fun m b => conf_add (eval_output p b) (snd b) m) loader m.

(** The mean loss and the top-1 accuracy of a pass over [loader] with
    parameters [p], the meters being reset from the states [ml], [ma]. *)
Definition phase_loss (p : Params) (loader : Loader) (ml : LossSt) : Q :=
  fst (loss_value (fed_loss p loader (loss_reset ml))).

Definition phase_top (k : nat) (p : Params) (loader : Loader) (ma : AccSt)
    : Q :=
  acc_value_at (fed_accuracy p loader (acc_reset ma)) k.

(** The world an evaluation pass over [l] leaves, its forward events
    carrying the no-gradient flag [g]. *)
Definition eval_pass (g : bool) (l : Loader) (w : World) : World :=
  mkWorld (params w) (opt_state w) (sched_state w)
    (match l with [] => training w | _ => false end) (grad_enabled w)
    (fed_loss (params w) l (meter_loss w))
    (fed_accuracy (params w) l (meter_accuracy w))
    (fed_confusion (params w) l (meter_confusion w))
    (best_accuracy w) (results w) (files w)
    (trace w ++ repeat (EvForward false g) (length l)).

(** The meter states a validation pass leaves behind, from which the
    test pass resets. *)
Definition val_meter_loss (w : World) : LossSt :=
  fed_loss (params w) val_loader (loss_reset (meter_loss w)).

Definition val_meter_accuracy (w : World) : AccSt :=
  fed_accuracy (params w) val_loader (acc_reset (meter_accuracy w)).

(** The events of one logging block (lines 54-62, 70-78, 96-104). *)
Definition log_events (ph : Phase) (e : nat) (loss top1 top5 : Q)
    : list Event :=
  [ EvPlot "Loss" e loss (phase_name ph);
    EvPlot "Top1 Accuracy" e top1 (phase_name ph);
    EvPlot "Top5 Accuracy" e top5 (phase_name ph);
    EvHeatmap ph;
    EvPrint ph e loss top1 top5 ].

(** The events of an evaluation pass over [n] batches under
    [torch.no_grad()], and of a training pass. *)
Definition eval_events (ph : Phase) (n : nat) : list Event :=
  EvPhaseBegin ph :: repeat (EvForward false true) n ++ [EvPhaseEnd ph].

Definition train_batch_events (no_grad : bool) : list Event :=
  [EvForward true no_grad; EvZeroGrad; EvBackward; EvOptimizerStep].

Definition train_events (no_grad : bool) (n : nat) : list Event :=
  EvPhaseBegin Train
    :: concat (repeat (train_batch_events no_grad) n) ++ [EvPhaseEnd Train].

(** The events of [on_end_epoch] called with epoch number [e] in the world
    [w] the training phase ended in. *)
Definition end_epoch_events (e : nat) (w : World) : list Event :=
  let p := params w in
  let v1 := phase_top 1 p val_loader (meter_accuracy w) in
  let save := Qgtb v1 (best_accuracy w) in
  log_events Train e (fst (loss_value (meter_loss w)))
    (acc_value_at (meter_accuracy w) 1) (acc_value_at (meter_accuracy w) 5)
  ++ EvResetMeters :: eval_events Val (length val_loader)
  ++ log_events Val e (phase_loss p val_loader (meter_loss w)) v1
       (phase_top 5 p val_loader (meter_accuracy w))
  ++ EvCheckpointDecision save
  :: (if save then [EvSave (checkpoint_path DATA_TYPE MODEL_TYPE)] else [])
  ++ EvSchedulerStep (phase_loss p val_loader (meter_loss w))
  :: EvResetMeters :: eval_events Test (length test_loader)
  ++ log_events Test e
       (phase_loss p test_loader (val_meter_loss w))
       (phase_top 1 p test_loader (val_meter_accuracy w))
       (phase_top 5 p test_loader (val_meter_accuracy w))
  ++ [EvToCsv (statistics_path DATA_TYPE MODEL_TYPE)].

(** The validation loss and top-1 accuracy of epoch [k + 1]: the pass over
    [val_loader] with the parameters the training phase ended with. *)
Definition val_loss_at (w0 : World) (k : nat) : Q :=
  let wt := train_phase (world_after k w0) in
  phase_loss (params wt) val_loader (meter_loss wt).

Definition val_top1_at (w0 : World) (k : nat) : Q :=
  let wt := train_phase (world_after k w0) in
  phase_top 1 (params wt) val_loader (meter_accuracy wt).

(** Whether epoch [k + 1] wrote the checkpoint. *)
Definition checkpoint_written (w0 : World) (k : nat) : bool :=
  existsb is_save (epoch_events w0 k).

(** The state [train] is started in: lines 123-127. *)
Definition run_start (w : World) : Prop :=
  best_accuracy w = 0%Q /\ results w = empty_results.

(** Every column of [results] holds [n] values under the nine keys. *)
Definition table_of (n : nat) (r : Results) : Prop :=
  map fst r = result_keys /\ Forall (fun c => length c = n) (map snd r).

End Readings.

(** ** The states of the meters *)

Section MeterStates.

Context {C : Collaborators}.

(** The loss, accuracy and confusion meters together. *)
Definition Meters : Type := LossSt * AccSt * ConfSt.

Definition meters_of (w : World) : Meters :=
  (meter_loss w, meter_accuracy w, meter_confusion w).

(** [reset()] on each of the three. *)
Definition reset_all (m : Meters) : Meters :=
  let '(ml, ma, mc) := m in (loss_reset ml, acc_reset ma, conf_reset mc).

(** The three meters after the batches of an evaluation pass with
    parameters [p] were added to them. *)
Definition fed (p : Params) (loader : Loader) (m : Meters) : Meters :=
  let '(ml, ma, mc) := m in
  (fed_loss p loader ml, fed_accuracy p loader ma, fed_confusion p loader mc).

(** The line printed for a pass from the meters it ends with. *)
Definition printed (ph : Phase) (epoch : nat) (m : Meters) : Event :=
  let '(ml, ma, _) := m in
  EvPrint ph epoch (fst (loss_value ml)) (acc_value_at ma 1)
    (acc_value_at ma 5).

(** One training batch on the parameters, the optimiser and the meters:
    the forward pass in training mode, the update, then [on_forward]. *)
Definition train_step (s : Params * OptState * Meters) (b : Batch)
    : Params * OptState * Meters :=
  let '(p, o, (ml, ma, mc)) := s in
  let output := model_forward p true (fst b) in
  let loss := loss_criterion output (snd b) in
  let '(o', p') := optimizer_update o p (fst b) (snd b) in
  (p', o',
   (loss_add loss ml, acc_add output (snd b) ma, conf_add output (snd b) mc)).

(** A training pass over a loader. *)
Definition trained (p : Params) (o : OptState) (loader : Loader)
    (m : Meters) : Params * OptState * Meters :=
  fold_left train_step loader (p, o, m).

(** [reset()] forgets: resetting after an [add], or after a [reset], is
    resetting at once. *)
Definition resets_forget : Prop :=
  (forall x m, loss_reset (loss_add x m) = loss_reset m)
  /\ (forall m, loss_reset (loss_reset m) = loss_reset m)
  /\ (forall out lab m, acc_reset (acc_add out lab m) = acc_reset m)
  /\ (forall m, acc_reset (acc_reset m) = acc_reset m)
  /\ (forall out lab m, conf_reset (conf_add out lab m) = conf_reset m)
  /\ (forall m, conf_reset (conf_reset m) = conf_reset m).

End MeterStates.


(** ** The metric accumulators of the spec (section 4.1)

    [tnt.meter.AverageValueMeter] and [tnt.meter.ClassErrorMeter] are
    imported by [train.py], not defined in it. *)

Module LossAccumulator.

(** Modelled from the spec: the class behind [meter_loss] is not part of
    [train.py].  "Loss Accumulator: running arithmetic mean of scalar loss
    values added since last reset. value() returns the mean; undefined/zero
    on empty state - must be defined consistently (e.g., 0.0)".  The state
    is the number of values added and their running mean. *)
Record state := mk { count : nat; mean : Q }.

Definition empty_value : Q := 0%Q.

Definition reset (s : state) : state := mk 0 empty_value.

Definition add (x : Q) (s : state) : state :=
  let n := S (count s) in
  mk n (mean s + (x - mean s) / inject_Z (Z.of_nat n))%Q.

Definition value (s : state) : Q := mean s.

(** The calls [add(x1)], ..., [add(xn)] in this order. *)
Definition add_all (xs : list Q) (s : state) : state :=
  fold_left (fun s x => add x s) xs s.

Definition Qsum (xs : list Q) : Q := fold_right Qplus 0%Q xs.

Definition arithmetic_mean (xs : list Q) : Q :=
  (Qsum xs / inject_Z (Z.of_nat (length xs)))%Q.

End LossAccumulator.

Module AccuracyAccumulator.

(** Modelled from the spec: the class behind [meter_accuracy] is not part
    of [train.py].  "Top-K Accuracy Accumulator: given logits of shape
    [B, num_classes] and integer labels of shape [B], for each requested k
    computes whether the true label appears in the top-k predicted classes
    per example, accumulates a running percentage (0-100) across all
    examples seen since reset. value() returns a sequence indexed by the
    k-list order."  A row of logits is a list of scores, one per class;
    the state counts the examples seen and, per requested k, the hits. *)
Record state := mk { seen : nat; hits : list (nat * nat) }.

(** Classes by decreasing score, the earlier class first among equals. *)
Fixpoint insert (c : nat * Q) (l : list (nat * Q)) : list (nat * Q) :=
  match l with
  | [] => [c]
  | d :: l' => if Qle_bool (snd d) (snd c) then c :: l else d :: insert c l'
  end.

Definition classes_from (i : nat) (row : list Q) : list (nat * Q) :=
  combine (seq i (length row)) row.

Definition ranked (row : list Q) : list nat :=
  map fst (fold_right insert [] (classes_from 0 row)).

Definition top_k (k : nat) (row : list Q) : list nat := firstn k (ranked row).

Definition hit (k : nat) (example : list Q * nat) : bool :=
  existsb (Nat.eqb (snd example)) (top_k k (fst example)).

(** The examples of a batch: logits row and label, pairwise. *)
Definition examples (logits : list (list Q)) (labels : list nat)
    : list (list Q * nat) :=
  combine logits labels.

Definition count_hits (k : nat) (es : list (list Q * nat)) : nat :=
  length (filter (hit k) es).

Definition create (topk : list nat) : state :=
  mk 0 (map (fun k => (k, 0)) topk).

Definition reset (s : state) : state :=
  mk 0 (map (fun kh => (fst kh, 0)) (hits s)).

Definition add (logits : list (list Q)) (labels : list nat) (s : state)
    : state :=
  let es := examples logits labels in
  mk (seen s + length es)
     (map (fun kh => (fst kh, snd kh + count_hits (fst kh) es)) (hits s)).

Definition percentage (h n : nat) : Q :=
  (100 * inject_Z (Z.of_nat h) / inject_Z (Z.of_nat n))%Q.

Definition value (s : state) : list Q :=
  map (fun kh => percentage (snd kh) (seen s)) (hits s).

(** The reading for one [k]; 0 for a [k] that was not requested. *)
Definition value_at (s : state) (k : nat) : Q :=
  match find (fun kh => fst kh =? k) (hits s) with
  | Some kh => percentage (snd kh) (seen s)
  | None => 0%Q
  end.

Definition add_all (batches : list (list (list Q) * list nat)) (s : state)
    : state :=
  fold_left (fun s b => add (fst b) (snd b) s) batches s.

(** The arg-max of a row: the first class of maximal score. *)
Fixpoint argmax_from (i : nat) (row : list Q) : option (nat * Q) :=
  match row with
  | [] => None
  | x :: rest =>
      match argmax_from (S i) rest with
      | None => Some (i, x)
      | Some (j, t) => if Qle_bool t x then Some (i, x) else Some (j, t)
      end
  end.

Definition argmax (row : list Q) : option nat :=
  option_map fst (argmax_from 0 row).

Definition argmax_correct (example : list Q * nat) : bool :=
  match argmax (fst example) with
  | Some c => c =? snd example
  | None => false
  end.

Definition all_examples (batches : list (list (list Q) * list nat))
    : list (list Q * nat) :=
  flat_map (fun b => examples (fst b) (snd b)) batches.

End AccuracyAccumulator.

(** ** A two-class toy run

    The scenario of section 8 of the spec: two classes, four training, two
    validation and two test examples in batches of two.  An example is one
    number, the model one weight; the loss of a batch counts its
    misclassified examples. *)

Module Toy.

Definition forward (p : Q) (_ : bool) (xs : list Q) : list (list Q) :=
  map (fun x => [p * x; 1 - p * x]%Q) xs.

Definition criterion (out : list (list Q)) (labels : list nat) : Q :=
  inject_Z
    (Z.of_nat
       (length
          (filter (fun e => negb (AccuracyAccumulator.argmax_correct e))
             (AccuracyAccumulator.examples out labels)))).

Definition collaborators : Collaborators := {|
  Data := list Q;
  Labels := list nat;
  Output := list (list Q);
  Params := Q;
  OptState := Q;
  SchedState := nat;
  LossSt := LossAccumulator.state;
  AccSt := AccuracyAccumulator.state;
  ConfSt := unit;
  model_forward := forward;
  loss_criterion := criterion;
  optimizer_update := fun lr p _ _ => (lr, (p + lr)%Q);
  plateau_step := fun _ s o => (S s, o);
  loss_reset := LossAccumulator.reset;
  loss_add := LossAccumulator.add;
  loss_value := fun s => (LossAccumulator.value s, 0%Q);
  acc_reset := fun _ => AccuracyAccumulator.create [1; 5];
  acc_add := AccuracyAccumulator.add;
  acc_value_at := AccuracyAccumulator.value_at;
  conf_reset := fun c => c;
  conf_add := fun _ _ c => c
|}.

Definition train_set : @Loader collaborators :=
  [ ([1; 2]%Q, [1; 0]); ([3; 4]%Q, [0; 1]) ].

Definition val_set : @Loader collaborators := [ ([5; 6]%Q, [1; 0]) ].

Definition test_set : @Loader collaborators := [ ([7; 8]%Q, [1; 1]) ].

(** A validation set on which the model is always wrong. *)
Definition hard_val_set : @Loader collaborators := [ ([5; 6]%Q, [0; 0]) ].

Definition startup (devices : nat) (val : @Loader collaborators)
    : @Startup collaborators := {|
  load_data := fun _ _ => (train_set, val, test_set);
  num_class := fun _ => 2;
  STTS := fun _ _ => 0%Q;
  R2Plus1D := fun _ => 0%Q;
  C3D := fun _ => 0%Q;
  new_optimizer := fun _ => (1 # 100)%Q;
  new_scheduler := fun _ => 0;
  new_loss_meter := LossAccumulator.mk 0 0;
  new_accuracy_meter := AccuracyAccumulator.create [1; 5];
  new_confusion_meter := fun _ => tt;
  to_device := fun p _ => inr p;
  device_count := devices;
  disk := []
|}.

Definition options : Options := mkOptions ucf101 [0; 1]%Z stts_a 2 3.

(** The globals and the world [setup] hands to [engine.train]. *)
Definition globals (val : @Loader collaborators) : @Globals collaborators :=
  @Build_Globals collaborators ucf101 stts_a [0; 1]%Z train_set val
    test_set.

Definition world : @World collaborators :=
  @mkWorld collaborators 0%Q (1 # 100)%Q 0 true true
    (LossAccumulator.mk 0 0) (AccuracyAccumulator.create [1; 5]) tt
    0%Q empty_results [] [].

End Toy.

Module ToyMeters.

(** The toy run with the accumulators' own [reset()] and, for the
    confusion matrix, its sum: the number of examples added since the
    reset. *)
Definition collaborators : Collaborators := {|
  Data := list Q;
  Labels := list nat;
  Output := list (list Q);
  Params := Q;
  OptState := Q;
  SchedState := nat;
  LossSt := LossAccumulator.state;
  AccSt := AccuracyAccumulator.state;
  ConfSt := nat;
  model_forward := Toy.forward;
  loss_criterion := Toy.criterion;
  optimizer_update := fun lr p _ _ => (lr, (p + lr)%Q);
  plateau_step := fun _ s o => (S s, o);
  loss_reset := LossAccumulator.reset;
  loss_add := LossAccumulator.add;
  loss_value := fun s => (LossAccumulator.value s, 0%Q);
  acc_reset := AccuracyAccumulator.reset;
  acc_add := AccuracyAccumulator.add;
  acc_value_at := AccuracyAccumulator.value_at;
  conf_reset := fun _ => 0;
  conf_add := fun _ labels c => c + length labels
|}.

Definition globals : @Globals collaborators :=
  @Build_Globals collaborators ucf101 stts_a [0; 1]%Z
    Toy.train_set Toy.val_set Toy.test_set.

Definition world : @World collaborators :=
  @mkWorld collaborators 0%Q (1 # 100)%Q 0 true true
    (LossAccumulator.mk 0 0) (AccuracyAccumulator.create [1; 5]) 0
    0%Q empty_results [] [].

End ToyMeters.

(** ** The history a run records *)

(** One more value at the end of every column, column by column. *)
Definition append_row (row : list Q) (r : Results) : Results :=
  map (fun cv => (fst (fst cv), snd (fst cv) ++ [snd cv])) (combine r row).

(** [results[key]]; [None] for a missing key. *)
Fixpoint column (key : string) (r : Results) : option (list Q) :=
  match r with
  | [] => None
  | (k, col) :: rest => if String.eqb k key then Some col else column key rest
  end.

(** The best accuracy after a sequence of validation accuracies: line 82
    applied to each in turn, from the 0 of line 127. *)
Definition running_best (vs : list Q) : Q :=
  fold_left (fun best v => if Qgtb v best then v else best) vs 0%Q.

Section History.

Context {C : Collaborators} {G : Globals}.

(** The nine readings [on_end_epoch] appends to [results] (lines 58-60,
    74-76, 100-102), in the order of the keys, from the world [w] the
    training phase ended in. *)
Definition epoch_metrics (w : World) : list Q :=
  let p := params w in
  [ fst (loss_value (meter_loss w));
    acc_value_at (meter_accuracy w) 1;
    acc_value_at (meter_accuracy w) 5;
    phase_loss p val_loader (meter_loss w);
    phase_top 1 p val_loader (meter_accuracy w);
    phase_top 5 p val_loader (meter_accuracy w);
    phase_loss p test_loader (val_meter_loss w);
    phase_top 1 p test_loader (val_meter_accuracy w);
    phase_top 5 p test_loader (val_meter_accuracy w) ].

(** The row of epoch [k + 1] of a run started in [w0]. *)
Definition row_at (w0 : World) (k : nat) : list Q :=
  epoch_metrics (train_phase (world_after k w0)).

(** The statistics frame on disk after [n] epochs, if any. *)
Definition statistics_frame (w0 : World) (n : nat) : option DataFrame :=
  match fs_read (statistics_path DATA_TYPE MODEL_TYPE)
          (files (world_after n w0)) with
  | Some (CsvFile _ df) => Some df
  | _ => None
  end.

(** The test of line 82 in epoch [k + 1] of a run: whether the validation
    top-1 accuracy of the epoch exceeds the best accuracy the epochs
    before it left. *)
Definition improved (w0 : World) (k : nat) : bool :=
  Qgtb (val_top1_at w0 k) (best_accuracy (world_after k w0)).

(** The epochs among the first [n] whose accuracy improved on the best. *)
Definition improving_epochs (w0 : World) (n : nat) : list nat :=
  filter (improved w0) (seq 0 n).

End History.

(** The table after the rows of some epochs, from the empty [results]. *)
Definition history_table (rows : list (list Q)) : Results :=
  fold_left (fun r row => append_row row r) rows empty_results.

(** ** Reading [--gpu_ids] (line 122) *)

(** The first piece of [s] before a separator and the pieces after it. *)
Fixpoint split_pieces (sep : ascii) (s : string) : string * list string :=
  match s with
  | EmptyString => (EmptyString, [])
  | String c rest =>
      let (piece, pieces) := split_pieces sep rest in
      if Ascii.eqb c sep then (EmptyString, piece :: pieces)
      else (String c piece, pieces)
  end.

(** [s.split(sep)] for a separator of one character: every occurrence
    splits, empty pieces are kept. *)
Definition split (sep : ascii) (s : string) : list string :=
  let (piece, pieces) := split_pieces sep s in piece :: pieces.

(** [sep.join(pieces)]. *)
Fixpoint join (sep : ascii) (pieces : list string) : string :=
  match pieces with
  | [] => EmptyString
  | [piece] => piece
  | piece :: rest => String.append piece (String sep (join sep rest))
  end.

(** [s.count(c)]. *)
Fixpoint count_char (c : ascii) (s : string) : nat :=
  match s with
  | EmptyString => 0
  | String c' rest => (if Ascii.eqb c' c then 1 else 0) + count_char c rest
  end.

Section GpuIds.

(** Python's [int] on a string; [None] stands for its [ValueError]. *)
Variable int : string -> option Z.

(** [[int(gpu) for gpu in pieces]]: the first [ValueError] ends the
    comprehension. *)
Fixpoint int_each (pieces : list string) : option (list Z) :=
  match pieces with
  | [] => Some []
  | piece :: rest =>
      match int piece with
      | None => None
      | Some z =>
          match int_each rest with
          | None => None
          | Some zs => Some (z :: zs)
          end
      end
  end.

(** [[int(gpu) for gpu in GPU_IDS.split(',')]]. *)
Definition parse_gpu_ids (GPU_IDS : string) : option (list Z) :=
  int_each (split "," GPU_IDS).

End GpuIds.

(** ** The model [setup] builds (lines 129-137) *)

Section NewModel.

Context {C : Collaborators} {S : Startup}.

Definition new_model (opt : Options) : Params :=
  let '(train_loader, _, _) := load_data (data_type opt) (batch_size opt) in
  let NUM_CLASS := num_class train_loader in
  match model_type opt with
  | stts_a | stts => STTS NUM_CLASS (model_type opt)
  | r2plus1d => R2Plus1D NUM_CLASS
  | c3d => C3D NUM_CLASS
  end.

End NewModel.

(** A reader of the device ids of the toy run. *)
Module ToyCli.

Definition int (s : string) : option Z :=
  if String.eqb s "0" then Some 0%Z
  else if String.eqb s "1" then Some 1%Z
  else if String.eqb s "2" then Some 2%Z
  else if String.eqb s "3" then Some 3%Z
  else None.

End ToyCli.

(** ** Facts about the engine and the hooks *)

Section RunFacts.

Context {C : Collaborators} {G : Globals}.

Local Abbreviation table9 c1 c2 c3 c4 c5 c6 c7 c8 c9 :=
  [ ("train_loss"%string, c1); ("train_top1_accuracy"%string, c2);
    ("train_top5_accuracy"%string, c3); ("val_loss"%string, c4);
    ("val_top1_accuracy"%string, c5); ("val_top5_accuracy"%string, c6);
    ("test_loss"%string, c7); ("test_top1_accuracy"%string, c8);
    ("test_top5_accuracy"%string, c9) ].

Lemma eval_fold l : forall w,
  fold_left (run_batch on_sample on_forward processor false) l w
  = eval_pass (negb (grad_enabled w)) l w.
Proof.
  induction l as [|b l IH]; intros w.
  - destruct w; unfold eval_pass; cbn. rewrite app_nil_r. reflexivity.
  - cbn [fold_left]. rewrite IH. destruct w, b as [d lb].
    unfold eval_pass, fed_loss, fed_accuracy, fed_confusion. cbn.
    rewrite <- app_assoc. cbn. destruct l; reflexivity.
Qed.

Lemma train_fold l : forall w,
  let w' := fold_left (run_batch on_sample on_forward processor true) l w in
  trace w' = trace w
             ++ concat (repeat (train_batch_events (negb (grad_enabled w)))
                          (length l))
  /\ grad_enabled w' = grad_enabled w
  /\ best_accuracy w' = best_accuracy w
  /\ results w' = results w
  /\ files w' = files w.
Proof.
  induction l as [|b l IH]; intros w; cbn [fold_left length repeat concat].
  - rewrite app_nil_r. repeat split.
  - destruct (IH (run_batch on_sample on_forward processor true w b))
      as (Ht & Hg & Hb & Hr & Hf).
    cbv zeta. rewrite Ht, Hg, Hb, Hr, Hf. clear.
    destruct w, b as [d lb].
    unfold run_batch, on_sample, processor, gradient_step. cbn.
    destruct (optimizer_update _ _ _ _) as [o p]. cbn.
    rewrite <- !app_assoc. repeat split.
Qed.

Lemma table_shape n r :
  table_of n r ->
  exists c1 c2 c3 c4 c5 c6 c7 c8 c9,
    r = table9 c1 c2 c3 c4 c5 c6 c7 c8 c9
    /\ Forall (fun c => length c = n) [c1; c2; c3; c4; c5; c6; c7; c8; c9].
Proof.
  intros [Hk Hl]. unfold result_keys in Hk.
  do 9 (destruct r as [|[? ?] r]; [discriminate Hk|]).
  destruct r; [|discriminate Hk].
  cbn in Hk. injection Hk as -> -> -> -> -> -> -> -> ->.
  cbn in Hl. do 9 eexists. split; [reflexivity|exact Hl].
Qed.

Lemma data_frame_grown e (c1 c2 c3 c4 c5 c6 c7 c8 c9 : list Q)
    x1 x2 x3 x4 x5 x6 x7 x8 x9 :
  Forall (fun c => length c = e) [c1; c2; c3; c4; c5; c6; c7; c8; c9] ->
  data_frame
    (table9 (c1 ++ [x1]) (c2 ++ [x2]) (c3 ++ [x3]) (c4 ++ [x4])
       (c5 ++ [x5]) (c6 ++ [x6]) (c7 ++ [x7]) (c8 ++ [x8]) (c9 ++ [x9]))
    (range1 (S e))
  = Some (mkDataFrame (range1 (S e))
            (table9 (c1 ++ [x1]) (c2 ++ [x2]) (c3 ++ [x3]) (c4 ++ [x4])
               (c5 ++ [x5]) (c6 ++ [x6]) (c7 ++ [x7]) (c8 ++ [x8])
               (c9 ++ [x9]))).
Proof.
  intros H. unfold data_frame, range1.
  repeat match goal with
         | H : Forall _ (_ :: _) |- _ => inversion H; subst; clear H
         end.
  cbn [forallb snd]. rewrite !length_app, length_seq. cbn [length].
  repeat match goal with H : length _ = _ |- _ => rewrite H; clear H end.
  rewrite Nat.add_1_r, Nat.eqb_refl. reflexivity.
Qed.

Lemma table_of_grown e (c1 c2 c3 c4 c5 c6 c7 c8 c9 : list Q)
    x1 x2 x3 x4 x5 x6 x7 x8 x9 :
  Forall (fun c => length c = e) [c1; c2; c3; c4; c5; c6; c7; c8; c9] ->
  table_of (S e)
    (table9 (c1 ++ [x1]) (c2 ++ [x2]) (c3 ++ [x3]) (c4 ++ [x4])
       (c5 ++ [x5]) (c6 ++ [x6]) (c7 ++ [x7]) (c8 ++ [x8]) (c9 ++ [x9])).
Proof.
  intros H. split; [reflexivity|]. cbn [map snd].
  repeat match goal with
         | H : Forall _ (_ :: _) |- _ => inversion H; subst; clear H
         end.
  repeat constructor; rewrite length_app; cbn [length]; lia.
Qed.

Lemma if_same {A} (b : bool) (x : A) : (if b then x else x) = x.
Proof. destruct b; reflexivity. Qed.

(** Symbolic execution of the hooks on a world given field by field. *)
Ltac exec :=
  cbv beta iota zeta delta
    [on_end_epoch log_phase save_best_model scheduler_step save_statistics
     results_append bind step get ret raise index acc_value topk
     reset_meters with_no_grad engine_test run_phase emit torch_save
     set_params set_opt_state set_sched_state set_training set_grad_enabled
     set_meter_loss set_meter_accuracy set_meter_confusion
     set_best_accuracy set_results set_files set_trace eval_pass
     params opt_state sched_state training grad_enabled meter_loss
     meter_accuracy meter_confusion best_accuracy results files trace
     map nth_error dict_append String.eqb Ascii.eqb Bool.eqb phase_name
     String.append negb].

(** What one call of [on_end_epoch] does to a world whose [results] hold
    [e] rows. *)
Lemma on_end_epoch_run e w :
  table_of e (results w) ->
  exists w',
    on_end_epoch (S e) w = Done tt w'
    /\ trace w' = trace w ++ end_epoch_events (S e) w
    /\ best_accuracy w'
       = (if Qgtb (phase_top 1 (params w) val_loader (meter_accuracy w))
               (best_accuracy w)
          then phase_top 1 (params w) val_loader (meter_accuracy w)
          else best_accuracy w)
    /\ params w' = params w
    /\ grad_enabled w' = grad_enabled w
    /\ table_of (S e) (results w')
    /\ files w'
       = fs_write (statistics_path DATA_TYPE MODEL_TYPE)
           (CsvFile "epoch" (mkDataFrame (range1 (S e)) (results w')))
           (if Qgtb (phase_top 1 (params w) val_loader (meter_accuracy w))
                 (best_accuracy w)
            then fs_write (checkpoint_path DATA_TYPE MODEL_TYPE)
                   (CheckpointFile (params w)) (files w)
            else files w).
Proof.
  intros H. apply table_shape in H.
  destruct H as (c1&c2&c3&c4&c5&c6&c7&c8&c9&Hr&Hl).
  destruct w; cbn in Hr; subst.
  unfold end_epoch_events, phase_top, phase_loss, val_meter_loss,
    val_meter_accuracy, log_events, eval_events.
  exec. rewrite eval_fold. exec.
  match goal with
  | |- context [Qgtb ?a ?b] => destruct (Qgtb a b) eqn:Hgt
  end;
  rewrite ?if_same;
  exec;
  match goal with
  | |- context [plateau_step ?a ?b ?c] =>
      destruct (plateau_step a b c) as [s' o'] eqn:Hp
  end;
  rewrite eval_fold; exec;
  rewrite (data_frame_grown _ _ _ _ _ _ _ _ _ _ _ _ _ _ _ _ _ _ _ Hl);
  eexists; (split; [reflexivity|]);
  repeat split;
  try (apply table_of_grown; exact Hl);
  rewrite <- ?app_assoc; cbn [app]; rewrite <- ?app_assoc; reflexivity.
Qed.

Lemma train_phase_run w :
  trace (train_phase w)
  = trace w ++ EvResetMeters
      :: train_events (negb (grad_enabled w)) (length train_loader)
  /\ grad_enabled (train_phase w) = grad_enabled w
  /\ best_accuracy (train_phase w) = best_accuracy w
  /\ results (train_phase w) = results w
  /\ files (train_phase w) = files w.
Proof.
  unfold train_phase, run_phase, on_start_epoch, train_events.
  destruct (train_fold train_loader
              (emit (EvPhaseBegin Train) (reset_meters w)))
    as (Ht & Hg & Hb & Hr & Hf).
  cbv zeta in *. cbn [emit set_trace trace grad_enabled best_accuracy
                        results files].
  rewrite Ht, Hg, Hb, Hr, Hf. destruct w; cbn.
  rewrite <- !app_assoc. cbn. repeat split.
Qed.

(** The events of one whole epoch, from the world [w] it starts in. *)
Lemma epoch_body_run e w :
  table_of e (results w) ->
  exists w',
    epoch_body e w = Done tt w'
    /\ trace w'
       = trace w ++ EvResetMeters
           :: train_events (negb (grad_enabled w)) (length train_loader)
           ++ end_epoch_events (S e) (train_phase w)
    /\ best_accuracy w'
       = (if Qgtb (phase_top 1 (params (train_phase w)) val_loader
                     (meter_accuracy (train_phase w)))
               (best_accuracy w)
          then phase_top 1 (params (train_phase w)) val_loader
                 (meter_accuracy (train_phase w))
          else best_accuracy w)
    /\ params w' = params (train_phase w)
    /\ grad_enabled w' = grad_enabled w
    /\ table_of (S e) (results w')
    /\ files w'
       = fs_write (statistics_path DATA_TYPE MODEL_TYPE)
           (CsvFile "epoch" (mkDataFrame (range1 (S e)) (results w')))
           (if Qgtb (phase_top 1 (params (train_phase w)) val_loader
                       (meter_accuracy (train_phase w)))
                 (best_accuracy w)
            then fs_write (checkpoint_path DATA_TYPE MODEL_TYPE)
                   (CheckpointFile (params (train_phase w))) (files w)
            else files w).
Proof.
  intros H.
  destruct (train_phase_run w) as (Ht & Hg & Hb & Hr & Hf).
  destruct (on_end_epoch_run e (train_phase w)) as
    (w' & Hrun & Ht' & Hb' & Hp' & Hg' & Hr' & Hf').
  { rewrite Hr. exact H. }
  exists w'. split.
  { unfold epoch_body, bind, step. exact Hrun. }
  rewrite Ht', Hb', Hp', Hg', Hf', Ht, Hg, Hb, Hf.
  rewrite <- app_assoc. cbn [app]. repeat split; apply Hr'.
Qed.

(** One turn of the loop of [engine.train]. *)
Lemma train_loop_S n e w :
  train_loop on_sample on_forward processor on_start_epoch on_end_epoch
    train_loader (S n) e w
  = match epoch_body e w with
    | Done _ w' =>
        train_loop on_sample on_forward processor on_start_epoch
          on_end_epoch train_loader n (S e) w'
    | Raised ex w' => Raised ex w'
    end.
Proof.
  cbn [train_loop]. unfold epoch_body, bind, step. reflexivity.
Qed.

(** The loop runs its epochs one after the other. *)
Lemma train_loop_snoc n : forall e w,
  train_loop on_sample on_forward processor on_start_epoch on_end_epoch
    train_loader (S n) e w
  = match train_loop on_sample on_forward processor on_start_epoch
            on_end_epoch train_loader n e w with
    | Done _ w' => epoch_body (n + e) w'
    | Raised ex w' => Raised ex w'
    end.
Proof.
  induction n as [|n IH]; intros e w.
  - rewrite train_loop_S. cbn [train_loop ret Nat.add].
    destruct (epoch_body e w) as [[] ?|? ?]; reflexivity.
  - rewrite train_loop_S. rewrite (train_loop_S n e w).
    destruct (epoch_body e w) as [[] w1|ex w1]; [|reflexivity].
    rewrite IH. rewrite Nat.add_succ_r. reflexivity.
Qed.

(** A run that starts with an empty [results] completes each of its
    epochs. *)
Lemma train_completes n w0 :
  results w0 = empty_results ->
  train (Z.of_nat n) w0 = Done tt (world_after n w0)
  /\ table_of n (results (world_after n w0)).
Proof.
  intros H0. unfold world_after, train, engine_train.
  rewrite Nat2Z.id. induction n as [|n [IHr IHt]].
  - cbn. rewrite H0. split; [reflexivity|]. split; [reflexivity|].
    cbn. repeat constructor.
  - rewrite train_loop_snoc.
    destruct (train_loop on_sample on_forward processor on_start_epoch
                on_end_epoch train_loader n 0 w0) as [[] wn|ex wn];
      [|discriminate IHr].
    cbn [final] in IHt. rewrite Nat.add_0_r.
    destruct (epoch_body_run n wn IHt)
      as (w' & Hrun & _ & _ & _ & _ & Ht & _).
    rewrite Hrun. cbn [final]. split; [reflexivity|exact Ht].
Qed.

Lemma world_after_S n w0 :
  results w0 = empty_results ->
  epoch_body n (world_after n w0) = Done tt (world_after (S n) w0).
Proof.
  intros H0.
  destruct (train_completes n w0 H0) as [Hn Ht].
  destruct (train_completes (S n) w0 H0) as [HS _].
  unfold train, engine_train in Hn, HS. rewrite Nat2Z.id in Hn, HS.
  rewrite train_loop_snoc in HS.
  rewrite Hn, Nat.add_0_r in HS. exact HS.
Qed.

Lemma new_events_app (w w' : World) d :
  trace w' = trace w ++ d -> new_events w w' = d.
Proof.
  intros H. unfold new_events. rewrite H.
  rewrite skipn_app, skipn_all, Nat.sub_diag. reflexivity.
Qed.

Lemma world_after_0 (w0 : World) : world_after 0 w0 = w0.
Proof. reflexivity. Qed.

(** One epoch of a run, from the world the previous ones left. *)
Lemma world_step w0 k :
  results w0 = empty_results ->
  let w := world_after k w0 in
  let w' := world_after (S k) w0 in
  trace w'
  = trace w ++ EvResetMeters
      :: train_events (negb (grad_enabled w)) (length train_loader)
      ++ end_epoch_events (S k) (train_phase w)
  /\ best_accuracy w'
     = (if Qgtb (phase_top 1 (params (train_phase w)) val_loader
                   (meter_accuracy (train_phase w)))
             (best_accuracy w)
        then phase_top 1 (params (train_phase w)) val_loader
               (meter_accuracy (train_phase w))
        else best_accuracy w)
  /\ params w' = params (train_phase w)
  /\ grad_enabled w' = grad_enabled w
  /\ table_of (S k) (results w')
  /\ files w'
     = fs_write (statistics_path DATA_TYPE MODEL_TYPE)
         (CsvFile "epoch" (mkDataFrame (range1 (S k)) (results w')))
         (if Qgtb (phase_top 1 (params (train_phase w)) val_loader
                     (meter_accuracy (train_phase w)))
               (best_accuracy w)
          then fs_write (checkpoint_path DATA_TYPE MODEL_TYPE)
                 (CheckpointFile (params (train_phase w))) (files w)
          else files w).
Proof.
  intros H0 w w'.
  destruct (train_completes k w0 H0) as [_ Ht].
  destruct (epoch_body_run k w Ht) as (w1 & Hrun & Hrest).
  unfold w in Hrun. rewrite (world_after_S k w0 H0) in Hrun.
  injection Hrun as <-. exact Hrest.
Qed.

Lemma grad_enabled_run w0 k :
  results w0 = empty_results ->
  grad_enabled (world_after k w0) = grad_enabled w0.
Proof.
  intros H0. induction k as [|k IH]; [reflexivity|].
  destruct (world_step w0 k H0) as (_ & _ & _ & Hg & _).
  rewrite Hg. exact IH.
Qed.

(** The log of epoch [k + 1], event by event. *)
Lemma epoch_events_run w0 k :
  results w0 = empty_results ->
  epoch_events w0 k
  = EvResetMeters
      :: train_events (negb (grad_enabled w0)) (length train_loader)
      ++ end_epoch_events (S k) (train_phase (world_after k w0)).
Proof.
  intros H0. unfold epoch_events.
  destruct (world_step w0 k H0) as (Ht & _).
  rewrite (grad_enabled_run w0 k H0) in Ht.
  apply new_events_app. exact Ht.
Qed.

(** *** Orders on rationals as the script tests them *)

Lemma Qgtb_true v b : Qgtb v b = true <-> (b < v)%Q.
Proof.
  unfold Qgtb. rewrite negb_true_iff. split; intros H.
  - apply Qnot_le_lt. intros Hle. apply Qle_bool_iff in Hle. congruence.
  - destruct (Qle_bool v b) eqn:E; [|reflexivity].
    apply Qle_bool_iff in E. exfalso. exact (Qlt_not_le _ _ H E).
Qed.

Lemma Qgtb_false v b : Qgtb v b = false <-> (v <= b)%Q.
Proof.
  unfold Qgtb. rewrite negb_false_iff. apply Qle_bool_iff.
Qed.

(** *** Filtering the log of an epoch *)

Lemma filter_repeat_none {A} (f : A -> bool) x n :
  f x = false -> filter f (repeat x n) = [].
Proof. intros H. induction n; cbn; [|rewrite H]; auto. Qed.

Lemma filter_concat_repeat_none {A} (f : A -> bool) l n :
  filter f l = [] -> filter f (concat (repeat l n)) = [].
Proof.
  intros H. induction n; cbn; [reflexivity|].
  rewrite filter_app, H, IHn. reflexivity.
Qed.

Lemma In_app_mid {A} (x : A) l1 l2 : In x (l1 ++ x :: l2).
Proof. apply in_or_app. right. left. reflexivity. Qed.

(** The save flag of an epoch, on the world the run reached. *)
Lemma save_flag w0 k :
  results w0 = empty_results ->
  Qgtb (phase_top 1 (params (train_phase (world_after k w0))) val_loader
          (meter_accuracy (train_phase (world_after k w0))))
       (best_accuracy (train_phase (world_after k w0)))
  = Qgtb (val_top1_at w0 k) (best_accuracy (world_after k w0)).
Proof.
  intros _. unfold val_top1_at.
  destruct (train_phase_run (world_after k w0)) as (_ & _ & Hb & _).
  rewrite Hb. reflexivity.
Qed.

(** Normal form of the log of an epoch. *)
Lemma epoch_events_flat w0 k :
  results w0 = empty_results ->
  let w := world_after k w0 in
  let wt := train_phase w in
  let p := params wt in
  let save := Qgtb (val_top1_at w0 k) (best_accuracy w) in
  epoch_events w0 k
  = (EvResetMeters
       :: train_events (negb (grad_enabled w0)) (length train_loader)
       ++ log_events Train (S k) (fst (loss_value (meter_loss wt)))
            (acc_value_at (meter_accuracy wt) 1)
            (acc_value_at (meter_accuracy wt) 5)
       ++ [EvResetMeters])
    ++ eval_events Val (length val_loader)
    ++ (log_events Val (S k) (val_loss_at w0 k) (val_top1_at w0 k)
          (phase_top 5 p val_loader (meter_accuracy wt))
        ++ EvCheckpointDecision save
        :: (if save
            then [EvSave (checkpoint_path DATA_TYPE MODEL_TYPE)] else [])
        ++ [EvSchedulerStep (val_loss_at w0 k); EvResetMeters])
    ++ eval_events Test (length test_loader)
    ++ (log_events Test (S k)
          (phase_loss p test_loader (val_meter_loss wt))
          (phase_top 1 p test_loader (val_meter_accuracy wt))
          (phase_top 5 p test_loader (val_meter_accuracy wt))
        ++ [EvToCsv (statistics_path DATA_TYPE MODEL_TYPE)]).
Proof.
  intros H0 w wt p save.
  rewrite (epoch_events_run w0 k H0). unfold end_epoch_events.
  rewrite (save_flag w0 k H0). fold w wt p save.
  unfold val_loss_at, val_top1_at. fold w wt p.
  repeat (rewrite <- ?app_assoc; cbn [app]). reflexivity.
Qed.

(** *** Filters over the segments of the log *)

Ltac filter_log :=
  unfold train_events, train_batch_events, eval_events, log_events;
  repeat (rewrite ?filter_app; cbn [filter is_scheduler_step is_decision
                                      is_save is_to_csv is_eval_marker
                                      is_phase_begin is_gradient_event
                                      negb app]);
  rewrite ?filter_repeat_none by reflexivity;
  rewrite ?filter_concat_repeat_none by reflexivity;
  cbn [app].

Lemma filter_nil_not_in {A} (f : A -> bool) l x :
  filter f l = [] -> f x = true -> ~ In x l.
Proof.
  intros Hf Hx Hin.
  assert (Hi : In x (filter f l)) by (apply filter_In; split; assumption).
  rewrite Hf in Hi. exact Hi.
Qed.

(** *** The scheduler, the optimiser and the meters through an epoch *)

(** What [on_end_epoch] leaves in the scheduler, the optimiser and the
    meters. *)
Lemma on_end_epoch_states e w :
  table_of e (results w) ->
  exists w',
    on_end_epoch (S e) w = Done tt w'
    /\ (sched_state w', opt_state w')
       = plateau_step (phase_loss (params w) val_loader (meter_loss w))
           (sched_state w) (opt_state w)
    /\ meters_of w'
       = fed (params w) test_loader
           (reset_all (fed (params w) val_loader (reset_all (meters_of w)))).
Proof.
  intros H. apply table_shape in H.
  destruct H as (c1&c2&c3&c4&c5&c6&c7&c8&c9&Hr&Hl).
  destruct w as [p o s tr ge ml ma mc b r f t]; cbn in Hr; subst.
  unfold meters_of, fed, reset_all, phase_loss.
  exec. rewrite eval_fold. exec.
  match goal with
  | |- context [Qgtb ?a ?b] => destruct (Qgtb a b) eqn:Hgt
  end;
  rewrite ?if_same;
  exec;
  match goal with
  | |- context [plateau_step ?a ?b ?c] =>
      destruct (plateau_step a b c) as [s' o'] eqn:Hp
  end;
  rewrite eval_fold; exec;
  rewrite (data_frame_grown _ _ _ _ _ _ _ _ _ _ _ _ _ _ _ _ _ _ _ Hl);
  eexists; (split; [reflexivity|]); split; reflexivity.
Qed.

(** The parameters, the optimiser and the meters through a training
    pass. *)
Lemma train_fold_state l : forall w,
  let w' := fold_left (run_batch on_sample on_forward processor true) l w in
  (params w', opt_state w', meters_of w')
  = trained (params w) (opt_state w) l (meters_of w)
  /\ sched_state w' = sched_state w.
Proof.
  induction l as [|b l IH]; intros w; cbn [fold_left].
  - split; reflexivity.
  - cbv zeta in *. destruct (IH (run_batch on_sample on_forward processor true w b))
      as [Hs Hc].
    rewrite Hs, Hc. clear IH Hs Hc.
    destruct w as [p o s tr ge ml ma mc bst r f t], b as [d lb].
    unfold trained, run_batch, on_sample, processor, gradient_step,
      on_forward, meters_of.
    cbn. destruct (optimizer_update o p d lb) as [o' p']. cbn.
    split; reflexivity.
Qed.

Lemma train_phase_state w :
  (params (train_phase w), opt_state (train_phase w),
   meters_of (train_phase w))
  = trained (params w) (opt_state w) train_loader (reset_all (meters_of w))
  /\ sched_state (train_phase w) = sched_state w.
Proof.
  unfold train_phase, run_phase, on_start_epoch.
  destruct (train_fold_state train_loader
              (emit (EvPhaseBegin Train) (reset_meters w))) as [Hs Hc].
  cbv zeta in *. destruct w as [p o s tr ge ml ma mc bst r f t].
  cbn in *. unfold meters_of in *. cbn in *. rewrite <- Hs, Hc.
  split; reflexivity.
Qed.

(** One epoch of a run on the scheduler, the optimiser and the meters. *)
Lemma states_step w0 k :
  results w0 = empty_results ->
  let w := world_after k w0 in
  let wt := train_phase w in
  (sched_state (world_after (S k) w0), opt_state (world_after (S k) w0))
  = plateau_step (val_loss_at w0 k) (sched_state wt) (opt_state wt)
  /\ meters_of (world_after (S k) w0)
     = fed (params wt) test_loader
         (reset_all (fed (params wt) val_loader (reset_all (meters_of wt)))).
Proof.
  intros H0. cbv zeta.
  destruct (train_completes k w0 H0) as [_ Ht].
  destruct (train_phase_run (world_after k w0)) as (_ & _ & _ & Hr & _).
  destruct (on_end_epoch_states k (train_phase (world_after k w0)))
    as (w' & Hrun & Hs & Hm).
  { rewrite Hr. exact Ht. }
  pose proof (world_after_S k w0 H0) as HS.
  unfold epoch_body, bind, step in HS.
  fold (train_phase (world_after k w0)) in HS.
  rewrite Hrun in HS. injection HS as <-.
  split; [exact Hs|exact Hm].
Qed.

(** C1: in every epoch of a run the plateau scheduler is stepped exactly
    once, with the mean loss of the validation pass; the step comes after
    the checkpoint decision (and its write, if any) and before the test
    pass begins; and the scheduler and the optimiser the epoch leaves are
    what this one step made of those the training pass left. *)
Theorem scheduler_step_once_per_epoch w0 k :
  results w0 = empty_results ->
  filter is_scheduler_step (epoch_events w0 k)
  = [EvSchedulerStep (val_loss_at w0 k)]
  /\ (exists pre save post,
        epoch_events w0 k
        = pre
          ++ EvCheckpointDecision save
          :: (if save
              then [EvSave (checkpoint_path DATA_TYPE MODEL_TYPE)] else [])
          ++ EvSchedulerStep (val_loss_at w0 k)
          :: EvResetMeters :: EvPhaseBegin Test :: post
        /\ In (EvPhaseEnd Val) pre
        /\ ~ In (EvPhaseBegin Test) pre
        /\ filter is_decision pre = [] /\ filter is_decision post = []
        /\ filter is_save pre = [] /\ filter is_save post = []
        /\ ~ In (EvPhaseBegin Test) post)
  /\ (sched_state (world_after (S k) w0), opt_state (world_after (S k) w0))
     = plateau_step (val_loss_at w0 k)
         (sched_state (train_phase (world_after k w0)))
         (opt_state (train_phase (world_after k w0))).
Proof.
  intros H0. pose proof (epoch_events_flat w0 k H0) as HE. cbv zeta in HE.
  pose proof (proj1 (states_step w0 k H0)) as HS.
  set (w := world_after k w0) in *. set (wt := train_phase w) in *.
  set (save := Qgtb (val_top1_at w0 k) (best_accuracy w)) in *.
  split; [|split; [|exact HS]].
  - rewrite HE. filter_log. destruct save; reflexivity.
  - exists
      ((EvResetMeters
          :: train_events (negb (grad_enabled w0)) (length train_loader)
          ++ log_events Train (S k) (fst (loss_value (meter_loss wt)))
               (acc_value_at (meter_accuracy wt) 1)
               (acc_value_at (meter_accuracy wt) 5)
          ++ [EvResetMeters])
       ++ eval_events Val (length val_loader)
       ++ log_events Val (S k) (val_loss_at w0 k) (val_top1_at w0 k)
            (phase_top 5 (params wt) val_loader (meter_accuracy wt))),
      save,
      (repeat (EvForward false true) (length test_loader)
       ++ EvPhaseEnd Test
       :: log_events Test (S k)
            (phase_loss (params wt) test_loader (val_meter_loss wt))
            (phase_top 1 (params wt) test_loader (val_meter_accuracy wt))
            (phase_top 5 (params wt) test_loader (val_meter_accuracy wt))
       ++ [EvToCsv (statistics_path DATA_TYPE MODEL_TYPE)]).
    split; [|split; [|split; [|split; [|split; [|split; [|split]]]]]].
    + rewrite HE. unfold eval_events at 2.
      repeat (rewrite <- ?app_assoc; cbn [app]). reflexivity.
    + apply in_or_app. right. apply in_or_app. left.
      unfold eval_events. right. apply In_app_mid.
    + apply (filter_nil_not_in begins_test); [|reflexivity].
      unfold begins_test. filter_log. reflexivity.
    + filter_log. reflexivity.
    + filter_log. reflexivity.
    + filter_log. reflexivity.
    + filter_log. reflexivity.
    + apply (filter_nil_not_in begins_test); [|reflexivity].
      unfold begins_test. filter_log. reflexivity.
Qed.

(** *** The best-accuracy tracker across epochs *)

Lemma existsb_filter {A} (f : A -> bool) l :
  existsb f l = match filter f l with [] => false | _ :: _ => true end.
Proof.
  induction l as [|x l IH]; cbn; [reflexivity|].
  destruct (f x); cbn; [reflexivity|exact IH].
Qed.

Lemma saves_of_epoch w0 k :
  results w0 = empty_results ->
  filter is_save (epoch_events w0 k)
  = if Qgtb (val_top1_at w0 k) (best_accuracy (world_after k w0))
    then [EvSave (checkpoint_path DATA_TYPE MODEL_TYPE)] else [].
Proof.
  intros H0. rewrite (epoch_events_flat w0 k H0). cbv zeta.
  filter_log.
  destruct (Qgtb (val_top1_at w0 k) (best_accuracy (world_after k w0)));
    reflexivity.
Qed.

Lemma checkpoint_written_eq w0 k :
  results w0 = empty_results ->
  checkpoint_written w0 k
  = Qgtb (val_top1_at w0 k) (best_accuracy (world_after k w0)).
Proof.
  intros H0. unfold checkpoint_written.
  rewrite existsb_filter, (saves_of_epoch w0 k H0).
  destruct (Qgtb _ _); reflexivity.
Qed.

Lemma best_step w0 k :
  results w0 = empty_results ->
  best_accuracy (world_after (S k) w0)
  = if Qgtb (val_top1_at w0 k) (best_accuracy (world_after k w0))
    then val_top1_at w0 k else best_accuracy (world_after k w0).
Proof.
  intros H0. destruct (world_step w0 k H0) as (_ & Hb & _). exact Hb.
Qed.

Lemma best_mono_step w0 k :
  results w0 = empty_results ->
  (best_accuracy (world_after k w0)
   <= best_accuracy (world_after (S k) w0))%Q.
Proof.
  intros H0. rewrite (best_step w0 k H0).
  destruct (Qgtb _ _) eqn:E.
  - apply Qgtb_true in E. apply Qlt_le_weak. exact E.
  - apply Qle_refl.
Qed.

Lemma best_mono w0 i j :
  results w0 = empty_results ->
  i <= j ->
  (best_accuracy (world_after i w0) <= best_accuracy (world_after j w0))%Q.
Proof.
  intros H0 Hij. induction Hij as [|j Hij IH].
  - apply Qle_refl.
  - eapply Qle_trans; [exact IH|]. apply best_mono_step. exact H0.
Qed.

(** *** The disk *)

Lemma fs_read_write_same p f (fs : FS) :
  fs_read p (fs_write p f fs) = Some f.
Proof. unfold fs_write. cbn. rewrite String.eqb_refl. reflexivity. Qed.

Lemma fs_read_write_other p q f (fs : FS) :
  String.eqb q p = false ->
  fs_read p (fs_write q f fs) = fs_read p fs.
Proof.
  intros Hqp. unfold fs_write. cbn [fs_read]. rewrite Hqp.
  induction fs as [|[r g] fs IH]; [reflexivity|].
  cbn [filter fst]. destruct (String.eqb r q) eqn:Erq; cbn [negb fs_read].
  - apply String.eqb_eq in Erq. subst r. rewrite Hqp. exact IH.
  - rewrite IH. reflexivity.
Qed.

Lemma paths_differ :
  String.eqb (statistics_path DATA_TYPE MODEL_TYPE)
    (checkpoint_path DATA_TYPE MODEL_TYPE) = false.
Proof. reflexivity. Qed.

Lemma files_step w0 k :
  results w0 = empty_results ->
  files (world_after (S k) w0)
  = fs_write (statistics_path DATA_TYPE MODEL_TYPE)
      (CsvFile "epoch"
         (mkDataFrame (range1 (S k)) (results (world_after (S k) w0))))
      (if checkpoint_written w0 k
       then fs_write (checkpoint_path DATA_TYPE MODEL_TYPE)
              (CheckpointFile (params (world_after (S k) w0)))
              (files (world_after k w0))
       else files (world_after k w0)).
Proof.
  intros H0.
  destruct (world_step w0 k H0) as (_ & _ & Hp & _ & _ & Hf).
  rewrite Hf, Hp, (checkpoint_written_eq w0 k H0). reflexivity.
Qed.

(** C2: the checkpoint is written in an epoch exactly when the validation
    top-1 accuracy of that epoch is strictly greater than the stored best
    accuracy; a write stores that accuracy as the new best (and leaves the
    weights under the checkpoint path), no write leaves the best accuracy
    as it was, and the same accuracy in a later epoch writes nothing. *)
Theorem checkpoint_iff_strictly_better w0 k :
  results w0 = empty_results ->
  (checkpoint_written w0 k = true
   <-> (best_accuracy (world_after k w0) < val_top1_at w0 k)%Q)
  /\ filter is_save (epoch_events w0 k)
     = (if checkpoint_written w0 k
        then [EvSave (checkpoint_path DATA_TYPE MODEL_TYPE)] else [])
  /\ (checkpoint_written w0 k = true ->
      best_accuracy (world_after (S k) w0) = val_top1_at w0 k
      /\ fs_read (checkpoint_path DATA_TYPE MODEL_TYPE)
           (files (world_after (S k) w0))
         = Some (CheckpointFile (params (world_after (S k) w0))))
  /\ (checkpoint_written w0 k = false ->
      best_accuracy (world_after (S k) w0)
      = best_accuracy (world_after k w0))
  /\ (forall j,
        k < j ->
        checkpoint_written w0 k = true ->
        (val_top1_at w0 j == val_top1_at w0 k)%Q ->
        checkpoint_written w0 j = false).
Proof.
  intros H0.
  pose proof (checkpoint_written_eq w0 k H0) as Hw.
  pose proof (best_step w0 k H0) as Hb.
  repeat split.
  - rewrite Hw. apply Qgtb_true.
  - rewrite Hw. apply Qgtb_true.
  - rewrite (saves_of_epoch w0 k H0), Hw. reflexivity.
  - rewrite Hw in H. rewrite Hb, H. reflexivity.
  - rewrite (files_step w0 k H0), H.
    rewrite fs_read_write_other by apply paths_differ.
    apply fs_read_write_same.
  - intros Hf. rewrite Hw in Hf. rewrite Hb, Hf. reflexivity.
  - intros j Hkj Ht Heq.
    rewrite (checkpoint_written_eq w0 j H0). apply Qgtb_false.
    rewrite Hw in Ht. rewrite Ht in Hb.
    rewrite Heq, <- Hb. apply best_mono; [exact H0|lia].
Qed.
(** *** The log of a whole run *)

Lemma trace_step w0 k :
  results w0 = empty_results ->
  trace (world_after (S k) w0)
  = trace (world_after k w0) ++ epoch_events w0 k.
Proof.
  intros H0. destruct (world_step w0 k H0) as (Ht & _).
  unfold epoch_events. rewrite (new_events_app _ _ _ Ht). exact Ht.
Qed.

(** The log of a run is the log of its epochs, one after the other. *)
Lemma trace_of_run w0 n :
  results w0 = empty_results ->
  trace (world_after n w0)
  = trace w0 ++ concat (map (epoch_events w0) (seq 0 n)).
Proof.
  intros H0. induction n as [|n IH].
  - rewrite world_after_0. cbn. rewrite app_nil_r. reflexivity.
  - rewrite (trace_step w0 n H0), IH, seq_S, map_app, concat_app.
    cbn. rewrite app_nil_r, app_assoc. reflexivity.
Qed.

Lemma best_nonneg w0 k :
  run_start w0 -> (0 <= best_accuracy (world_after k w0))%Q.
Proof.
  intros [Hb H0].
  pose proof (best_mono w0 0 k H0 (Nat.le_0_l k)) as H.
  rewrite world_after_0, Hb in H. exact H.
Qed.

(** C10: the tracker starts at 0 and the test of line 82 is strict, so an
    epoch whose validation top-1 accuracy is 0 writes no checkpoint; a run
    whose epochs all have validation accuracy 0 issues no [torch.save] at
    all and leaves the checkpoint path on disk as it found it. *)
Theorem zero_accuracy_never_saves w0 :
  run_start w0 ->
  (forall k, (val_top1_at w0 k == 0)%Q -> checkpoint_written w0 k = false)
  /\ (forall n,
        (forall k, k < n -> (val_top1_at w0 k == 0)%Q) ->
        filter is_save (new_events w0 (world_after n w0)) = []
        /\ fs_read (checkpoint_path DATA_TYPE MODEL_TYPE)
             (files (world_after n w0))
           = fs_read (checkpoint_path DATA_TYPE MODEL_TYPE) (files w0)).
Proof.
  intros Hs. pose proof Hs as [Hb H0].
  assert (Hno : forall k, (val_top1_at w0 k == 0)%Q ->
                          checkpoint_written w0 k = false).
  { intros k Hz. rewrite (checkpoint_written_eq w0 k H0).
    apply Qgtb_false. rewrite Hz. apply best_nonneg. exact Hs. }
  split; [exact Hno|].
  intros n Hall. split.
  - rewrite (new_events_app w0 (world_after n w0) _ (trace_of_run w0 n H0)).
    induction n as [|n IH]; [reflexivity|].
    rewrite seq_S, map_app, concat_app, filter_app. cbn [map concat Nat.add].
    rewrite app_nil_r, IH by (intros k Hk; apply Hall; lia).
    rewrite (saves_of_epoch w0 n H0), <- (checkpoint_written_eq w0 n H0).
    rewrite Hno by (apply Hall; lia). reflexivity.
  - induction n as [|n IH]; [reflexivity|].
    rewrite (files_step w0 n H0), Hno by (apply Hall; lia).
    rewrite fs_read_write_other by apply paths_differ.
    apply IH. intros k Hk. apply Hall. lia.
Qed.

(** *** The statistics file *)

Lemma fs_write_unique p f (fs : FS) :
  length (filter (fun pf => String.eqb (fst pf) p) (fs_write p f fs)) = 1.
Proof.
  unfold fs_write. cbn [filter fst]. rewrite String.eqb_refl. cbn [length].
  f_equal. induction fs as [|[r g] fs IH]; [reflexivity|].
  cbn [filter fst]. destruct (String.eqb r p) eqn:E; cbn [negb].
  - exact IH.
  - cbn [filter fst]. rewrite E. exact IH.
Qed.

Lemma map_nth_seq {A} (l : list A) d :
  map (fun i => nth i l d) (seq 0 (length l)) = l.
Proof.
  induction l as [|x l IH]; [reflexivity|].
  cbn [length seq map nth]. rewrite <- seq_shift, map_map.
  cbn [nth]. rewrite IH. reflexivity.
Qed.

(** C5: after every completed epoch the statistics file holds the whole of
    [results]: it is written once per epoch under
    [statistics/{data_type}_{model_type}_results.csv], replaces the file
    of the epoch before, and after epoch [k + 1] has [k + 1] rows, indexed
    1, ..., k + 1 under the label [epoch], and the nine metric columns. *)
Theorem statistics_file_after_epoch w0 k :
  results w0 = empty_results ->
  let w := world_after (S k) w0 in
  let path := statistics_path DATA_TYPE MODEL_TYPE in
  train (Z.of_nat (S k)) w0 = Done tt w
  /\ filter is_to_csv (epoch_events w0 k) = [EvToCsv path]
  /\ file_name path = results_file_name DATA_TYPE MODEL_TYPE
  /\ length (filter (fun pf => String.eqb (fst pf) path) (files w)) = 1
  /\ exists df,
       fs_read path (files w) = Some (CsvFile "epoch" df)
       /\ df_columns df = results w
       /\ map fst (df_columns df) = result_keys
       /\ length (df_columns df) = 9
       /\ Forall (fun kc => length (snd kc) = S k) (df_columns df)
       /\ df_index df = seq 1 (S k)
       /\ length (df_rows df) = S k
       /\ map fst (df_rows df) = seq 1 (S k).
Proof.
  intros H0 w path.
  destruct (train_completes (S k) w0 H0) as [Hrun [Hkeys Hlen]].
  pose proof (files_step w0 k H0) as Hf. fold w path in Hf, Hkeys, Hlen.
  split; [exact Hrun|]. split.
  { rewrite (epoch_events_flat w0 k H0). cbv zeta. filter_log.
    destruct (Qgtb _ _); reflexivity. }
  split.
  { unfold path. destruct DATA_TYPE, MODEL_TYPE; reflexivity. }
  split.
  { rewrite Hf. apply fs_write_unique. }
  exists (mkDataFrame (range1 (S k)) (results w)).
  split; [rewrite Hf; apply fs_read_write_same|].
  cbn [df_columns df_index]. unfold range1.
  split; [reflexivity|]. split; [exact Hkeys|]. split.
  { rewrite <- (length_map fst), Hkeys. reflexivity. }
  split.
  { apply Forall_map in Hlen. exact Hlen. }
  split; [reflexivity|]. split.
  { unfold df_rows. cbn [df_index]. rewrite length_map, !length_seq.
    reflexivity. }
  unfold df_rows, df_row. cbn [df_index df_columns].
  rewrite map_map. cbn [fst].
  rewrite <- (map_nth_seq (seq 1 (S k)) 0) at 2. reflexivity.
Qed.
(** *** Evaluation passes *)

(** What [with torch.no_grad(): engine.test(processor, loader)] does. *)
Lemma engine_test_run ph loader w :
  let w' :=
    with_no_grad (engine_test on_sample on_forward processor ph loader) w in
  params w' = params w
  /\ opt_state w' = opt_state w
  /\ grad_enabled w' = grad_enabled w
  /\ trace w' = trace w ++ eval_events ph (length loader).
Proof.
  unfold with_no_grad, engine_test, run_phase, eval_events.
  rewrite eval_fold. destruct w. cbn. rewrite <- !app_assoc.
  repeat split.
Qed.

Lemma eval_events_members ph n e :
  In e (eval_events ph n) ->
  e = EvPhaseBegin ph \/ e = EvForward false true \/ e = EvPhaseEnd ph.
Proof.
  unfold eval_events. intros [H|H]; [left; congruence|].
  apply in_app_or in H. destruct H as [H|[H|[]]].
  - right. left. apply repeat_spec in H. exact H.
  - right. right. congruence.
Qed.

(** C6: the validation and the test pass of every epoch run under
    [torch.no_grad()] with the training flag false: between the markers of
    each pass the log holds one forward call per batch, with training
    false and gradients off, and nothing else: no [zero_grad], no
    [backward], no optimiser step.  The parameters the training phase
    ended with are those the epoch ends with, and no call of
    [engine.test] under [torch.no_grad()] changes the parameters or the
    optimiser. *)
Theorem evaluation_never_trains w0 k :
  results w0 = empty_results ->
  (exists pre mid post,
     epoch_events w0 k
     = pre ++ eval_events Val (length val_loader)
           ++ mid ++ eval_events Test (length test_loader) ++ post
     /\ filter is_eval_marker pre = []
     /\ filter is_eval_marker mid = []
     /\ filter is_eval_marker post = [])
  /\ (forall ph n,
        filter is_gradient_event (eval_events ph n) = []
        /\ forall e, In e (eval_events ph n) ->
             e = EvPhaseBegin ph \/ e = EvForward false true
             \/ e = EvPhaseEnd ph)
  /\ params (world_after (S k) w0)
     = params (train_phase (world_after k w0))
  /\ (forall ph loader w,
        let w' :=
          with_no_grad
            (engine_test on_sample on_forward processor ph loader) w in
        params w' = params w
        /\ opt_state w' = opt_state w
        /\ grad_enabled w' = grad_enabled w
        /\ trace w' = trace w ++ eval_events ph (length loader)).
Proof.
  intros H0. split; [|split; [|split]].
  - pose proof (epoch_events_flat w0 k H0) as HE. cbv zeta in HE.
    eexists _, _, _. split; [exact HE|].
    repeat split; filter_log;
      try destruct (Qgtb _ _); reflexivity.
  - intros ph n. split; [filter_log; reflexivity|].
    apply eval_events_members.
  - destruct (world_step w0 k H0) as (_ & _ & Hp & _). exact Hp.
  - intros ph loader w. apply engine_test_run.
Qed.
(** *** Resets before the passes *)

Lemma guarded_none t :
  filter is_phase_begin t = [] -> reset_before_phases t.
Proof.
  intros Hn pre ph post Ht. exfalso.
  apply (filter_nil_not_in is_phase_begin t (EvPhaseBegin ph) Hn eq_refl).
  rewrite Ht. apply In_app_mid.
Qed.

Lemma guarded_app A ph0 B :
  filter is_phase_begin A = [] ->
  reset_before_phases B ->
  reset_before_phases (A ++ EvResetMeters :: EvPhaseBegin ph0 :: B).
Proof.
  intros HA HB pre ph post Ht.
  apply app_eq_app in Ht. destruct Ht as [l [[H1 H2]|[H1 H2]]].
  - destruct l as [|x l]; cbn in H2; [discriminate H2|].
    injection H2 as <- _. exfalso.
    apply (filter_nil_not_in is_phase_begin A (EvPhaseBegin ph) HA eq_refl).
    rewrite H1. apply In_app_mid.
  - destruct l as [|x l]; cbn in H2; [discriminate H2|].
    injection H2 as <- H2.
    destruct l as [|y l]; cbn in H2.
    + exists A. exact H1.
    + injection H2 as <- H2. destruct (HB l ph post H2) as [q Hq].
      exists (A ++ EvResetMeters :: EvPhaseBegin ph0 :: q).
      rewrite H1, Hq, <- app_assoc. reflexivity.
Qed.

Lemma reset_meters_run (w : World) :
  meter_loss (reset_meters w) = loss_reset (meter_loss w)
  /\ meter_accuracy (reset_meters w) = acc_reset (meter_accuracy w)
  /\ meter_confusion (reset_meters w) = conf_reset (meter_confusion w)
  /\ trace (reset_meters w) = trace w ++ [EvResetMeters].
Proof. repeat split. Qed.

(** *** Meters that forget *)

Lemma fold_forgets {A B} (reset : A -> A) (f : A -> B -> A) :
  (forall a b, reset (f a b) = reset a) ->
  forall l a, reset (fold_left f l a) = reset a.
Proof.
  intros H l. induction l as [|b l IH]; intros a; cbn; [reflexivity|].
  rewrite IH. apply H.
Qed.

Lemma reset_all_fed p loader m :
  resets_forget -> reset_all (fed p loader m) = reset_all m.
Proof.
  intros (Hl & _ & Ha & _ & Hc & _). destruct m as [[ml ma] mc].
  unfold fed, reset_all, fed_loss, fed_accuracy, fed_confusion.
  rewrite (fold_forgets loss_reset), (fold_forgets acc_reset),
    (fold_forgets conf_reset); [reflexivity|..]; intros a b.
  - apply Hc.
  - apply Ha.
  - apply Hl.
Qed.

Lemma reset_all_twice m :
  resets_forget -> reset_all (reset_all m) = reset_all m.
Proof.
  intros (_ & Hl & _ & Ha & _ & Hc). destruct m as [[ml ma] mc].
  unfold reset_all. rewrite Hl, Ha, Hc. reflexivity.
Qed.

Lemma reset_all_trained loader :
  resets_forget ->
  forall p o m, reset_all (snd (trained p o loader m)) = reset_all m.
Proof.
  intros (Hl & _ & Ha & _ & Hc & _). unfold trained.
  induction loader as [|b l IH]; intros p o m; cbn [fold_left];
    [reflexivity|].
  destruct m as [[ml ma] mc]. cbn [train_step].
  destruct (optimizer_update o p (fst b) (snd b)) as [o' p'].
  rewrite IH. unfold reset_all. rewrite Hl, Ha, Hc. reflexivity.
Qed.

(** Whatever a run did, a reset gives what a reset gave at its start. *)
Lemma meters_forgotten w0 k :
  resets_forget ->
  results w0 = empty_results ->
  reset_all (meters_of (world_after k w0)) = reset_all (meters_of w0)
  /\ reset_all (meters_of (train_phase (world_after k w0)))
     = reset_all (meters_of w0).
Proof.
  intros HF H0.
  assert (Ht : forall w, reset_all (meters_of (train_phase w))
                         = reset_all (meters_of w)).
  { intros w. destruct (train_phase_state w) as [Hs _].
    replace (meters_of (train_phase w))
      with (snd (params (train_phase w), opt_state (train_phase w),
                 meters_of (train_phase w))) by reflexivity.
    rewrite Hs, (reset_all_trained _ HF). apply reset_all_twice, HF. }
  induction k as [|k [IH _]].
  - split; [reflexivity|apply Ht].
  - assert (Hk : reset_all (meters_of (world_after (S k) w0))
                 = reset_all (meters_of w0)).
    { destruct (states_step w0 k H0) as [_ Hm]. cbv zeta in Hm.
      rewrite Hm, (reset_all_fed _ _ _ HF), (reset_all_twice _ HF),
        (reset_all_fed _ _ _ HF), (reset_all_twice _ HF), Ht.
      exact IH. }
    split; [exact Hk|]. rewrite Ht. exact Hk.
Qed.

(** The three summary lines of an epoch. *)
Lemma printed_lines w0 k :
  results w0 = empty_results ->
  let wt := train_phase (world_after k w0) in
  let p := params wt in
  let mv := fed p val_loader (reset_all (meters_of wt)) in
  In (printed Train (S k) (meters_of wt)) (epoch_events w0 k)
  /\ In (printed Val (S k) mv) (epoch_events w0 k)
  /\ In (printed Test (S k) (fed p test_loader (reset_all mv)))
       (epoch_events w0 k).
Proof.
  intros H0. pose proof (epoch_events_flat w0 k H0) as HE. cbv zeta in *.
  rewrite HE. unfold val_loss_at, val_top1_at.
  set (wt := train_phase (world_after k w0)).
  unfold printed, meters_of, fed, reset_all, phase_loss, phase_top,
    val_meter_loss, val_meter_accuracy.
  split; [|split].
  - apply in_or_app. left. right. apply in_or_app. right.
    apply in_or_app. left. cbn. auto 10.
  - apply in_or_app. right. apply in_or_app. right.
    apply in_or_app. left. apply in_or_app. left. cbn. auto 10.
  - apply in_or_app. right. apply in_or_app. right.
    apply in_or_app. right. apply in_or_app. right.
    apply in_or_app. left. cbn. auto 10.
Qed.

(** C4: [reset_meters] resets the three meters; in every epoch it is the
    call right before each of the training, validation and test passes.
    So the three meters end the training pass as the training batches
    alone made them from a reset, the summary of each pass prints the
    readings of meters reset and fed the batches of that pass, and the
    epoch leaves the three meters as the test batches alone made them from
    a reset.  A [reset()] that forgets what was added makes every one of
    these the same as from a reset of the meters the run started with:
    nothing is carried from one pass or epoch to the next. *)
Theorem meters_reset_before_each_phase w0 k :
  results w0 = empty_results ->
  let w := world_after k w0 in
  let wt := train_phase w in
  let p := params wt in
  let mv := fed p val_loader (reset_all (meters_of wt)) in
  (forall w : World,
     meter_loss (reset_meters w) = loss_reset (meter_loss w)
     /\ meter_accuracy (reset_meters w) = acc_reset (meter_accuracy w)
     /\ meter_confusion (reset_meters w) = conf_reset (meter_confusion w)
     /\ trace (reset_meters w) = trace w ++ [EvResetMeters])
  /\ reset_before_phases (epoch_events w0 k)
  /\ (forall ph, In (EvPhaseBegin ph) (epoch_events w0 k))
  /\ ((params wt, opt_state wt, meters_of wt)
      = trained (params w) (opt_state w) train_loader
          (reset_all (meters_of w))
      /\ In (printed Train (S k) (meters_of wt)) (epoch_events w0 k)
      /\ In (printed Val (S k) mv) (epoch_events w0 k)
      /\ In (printed Test (S k) (fed p test_loader (reset_all mv)))
           (epoch_events w0 k)
      /\ meters_of (world_after (S k) w0)
         = fed p test_loader (reset_all mv))
  /\ (resets_forget ->
      let m0 := reset_all (meters_of w0) in
      (params wt, opt_state wt, meters_of wt)
      = trained (params w) (opt_state w) train_loader m0
      /\ In (printed Val (S k) (fed p val_loader m0)) (epoch_events w0 k)
      /\ In (printed Test (S k) (fed p test_loader m0)) (epoch_events w0 k)
      /\ meters_of (world_after (S k) w0) = fed p test_loader m0).
Proof.
  intros H0 w wt p mv.
  pose proof (epoch_events_flat w0 k H0) as HE. cbv zeta in HE.
  split; [exact reset_meters_run|]. split; [|split; [|split]].
  - rewrite HE.
    match goal with
    | |- reset_before_phases
           ((_ :: train_events ?g ?n ++ ?lt ++ _) ++ eval_events _ ?nv
            ++ (?lv ++ ?d :: ?sv ++ [?st; _]) ++ eval_events _ ?nt ++ ?lte) =>
        replace ((EvResetMeters :: train_events g n ++ lt ++ [EvResetMeters])
                 ++ eval_events Val nv
                 ++ (lv ++ d :: sv ++ [st; EvResetMeters])
                 ++ eval_events Test nt ++ lte)
          with ([] ++ EvResetMeters :: EvPhaseBegin Train
                :: (concat (repeat (train_batch_events g) n)
                    ++ EvPhaseEnd Train :: lt)
                ++ EvResetMeters :: EvPhaseBegin Val
                :: (repeat (EvForward false true) nv
                    ++ EvPhaseEnd Val :: lv ++ d :: sv ++ [st])
                ++ EvResetMeters :: EvPhaseBegin Test
                :: (repeat (EvForward false true) nt
                    ++ EvPhaseEnd Test :: lte))
    end.
    2:{ unfold train_events, eval_events.
        repeat (rewrite <- ?app_assoc; cbn [app]). reflexivity. }
    apply guarded_app; [reflexivity|].
    apply guarded_app; [filter_log; reflexivity|].
    apply guarded_app;
      [filter_log; destruct (Qgtb _ _); reflexivity|].
    apply guarded_none. filter_log. reflexivity.
  - intros ph. rewrite HE. destruct ph.
    + apply in_or_app. left. right. left. reflexivity.
    + apply in_or_app. right. apply in_or_app. left. left. reflexivity.
    + apply in_or_app. right. apply in_or_app. right.
      apply in_or_app. right. apply in_or_app. left. left. reflexivity.
  - destruct (printed_lines w0 k H0) as (Ht & Hv & Hte).
    split; [exact (proj1 (train_phase_state w))|].
    split; [exact Ht|]. split; [exact Hv|]. split; [exact Hte|].
    exact (proj2 (states_step w0 k H0)).
  - intros HF m0.
    destruct (printed_lines w0 k H0) as (_ & Hv & Hte).
    pose proof (proj2 (states_step w0 k H0)) as Hm.
    pose proof (proj1 (train_phase_state w)) as Htr.
    cbv zeta in Hv, Hte, Hm. fold w wt p in Hv, Hte, Hm.
    destruct (meters_forgotten w0 k HF H0) as [Hw Hwt]. fold w wt in Hw, Hwt.
    rewrite (reset_all_fed _ _ _ HF), (reset_all_twice _ HF), Hwt
      in Hte, Hm.
    rewrite Hwt in Hv. rewrite Hw in Htr.
    split; [exact Htr|]. split; [exact Hv|]. split; [exact Hte|exact Hm].
Qed.

End RunFacts.

(** ** Facts about [__main__] *)

Section StartupFacts.

Context {C : Collaborators} {S : Startup}.

(** What [setup] hands to [engine.train]. *)
Lemma setup_done opt G w :
  setup opt = Done G w ->
  run_start w /\ trace w = [] /\ files w = disk.
Proof.
  unfold setup, run_start.
  destruct (load_data (data_type opt) (batch_size opt)) as [[tl vl] tel].
  destruct (gpu_ids opt) as [|d0 ids]; [discriminate|].
  destruct (to_device _ d0) as [e|m]; [discriminate|].
  destruct (1 <? length (d0 :: ids));
    [destruct (length (d0 :: ids) <=? device_count); [|discriminate]|];
    intros H; injection H as <- <-; repeat split.
Qed.

Lemma final_main opt G w0 :
  setup opt = Done G w0 ->
  main opt = train (G := G) (num_epochs opt) w0
  /\ final (main opt)
     = world_after (G := G) (Z.to_nat (num_epochs opt)) w0.
Proof.
  intros Hs. unfold main. rewrite Hs. split; [reflexivity|].
  unfold world_after, train, engine_train. rewrite Nat2Z.id. reflexivity.
Qed.

(** C3: the run starts with [best_accuracy = 0], and from one epoch to
    any later one the tracker never decreases. *)
Theorem best_accuracy_never_decreases opt G w0 :
  setup opt = Done G w0 ->
  best_accuracy w0 = 0%Q
  /\ main opt = train (G := G) (num_epochs opt) w0
  /\ (forall i j,
        i <= j ->
        (best_accuracy (world_after (G := G) i w0)
         <= best_accuracy (world_after (G := G) j w0))%Q)
  /\ (forall i, (0 <= best_accuracy (world_after (G := G) i w0))%Q).
Proof.
  intros Hs. destruct (setup_done opt G w0 Hs) as (Hstart & _).
  pose proof Hstart as [Hb H0].
  split; [exact Hb|]. split; [apply final_main; exact Hs|]. split.
  - intros i j Hij. apply best_mono; assumption.
  - intros i. apply best_nonneg. exact Hstart.
Qed.

(** C9: when the options name more devices than
    [torch.cuda.device_count()] reports, the program raises before
    [engine.train] is called: nothing is logged and nothing is written.
    For a parallel configuration (more than one id) this is the
    [ValueError] of line 149; a single id on a machine without device is
    left to [model.to], assumed to succeed on existing devices only. *)
Theorem too_many_devices_is_fatal opt :
  device_count < length (gpu_ids opt) ->
  (1 < length (gpu_ids opt)
   \/ forall p d p', to_device p d = inr p' ->
                     (0 <= d)%Z /\ Z.to_nat d < device_count) ->
  exists e w,
    main opt = Raised e w
    /\ trace w = []
    /\ files w = disk
    /\ (e = ValueError
              ("the machine don't have "
               ++ str_of_nat (length (gpu_ids opt)) ++ " gpus")
        \/ exists p d, to_device p d = inl e).
Proof.
  intros Hmore Hpar. unfold main, setup.
  destruct (load_data (data_type opt) (batch_size opt)) as [[tl vl] tel].
  destruct (gpu_ids opt) as [|d0 ids] eqn:Hids; [cbn in Hmore; lia|].
  match goal with
  | |- context [to_device ?m d0] => destruct (to_device m d0) as [e|m'] eqn:Hto
  end.
  - eexists _, _. split; [reflexivity|]. repeat split.
    right. eexists _, _. exact Hto.
  - destruct (1 <? length (d0 :: ids)) eqn:H1.
    + destruct (length (d0 :: ids) <=? device_count) eqn:H2.
      * apply Nat.leb_le in H2. lia.
      * eexists _, _. split; [reflexivity|]. repeat split. left. reflexivity.
    + apply Nat.ltb_ge in H1. destruct Hpar as [Hp|Hp]; [lia|].
      destruct (Hp _ _ _ Hto) as [_ Hd]. lia.
Qed.

End StartupFacts.

(** ** Facts about the accumulators of the spec *)

Module LossAccumulatorFacts.
Import LossAccumulator.

Lemma inject_S_nonzero n : ~ (inject_Z (Z.of_nat (S n)) == 0)%Q.
Proof.
  intros H. unfold Qeq in H. cbn in H. lia.
Qed.

(** Adding keeps the running mean: count times mean is the sum. *)
Lemma add_all_sum xs : forall s,
  count (add_all xs s) = count s + length xs
  /\ (mean (add_all xs s) * inject_Z (Z.of_nat (count (add_all xs s)))
      == mean s * inject_Z (Z.of_nat (count s)) + Qsum xs)%Q.
Proof.
  induction xs as [|x xs IH]; intros s.
  - cbn. split; [lia|]. ring.
  - cbn [add_all fold_left]. fold (add_all xs (add x s)).
    destruct (IH (add x s)) as [Hc Hm]. split.
    + rewrite Hc. cbn. lia.
    + rewrite Hm. cbn [add count mean Qsum fold_right].
      fold (Qsum xs).
      pose proof (inject_S_nonzero (count s)) as Hnz.
      rewrite (Nat2Z.inj_succ (count s)) in *.
      unfold Z.succ in *. rewrite inject_Z_plus in *.
      field. exact Hnz.
Qed.

(** C7: whatever the accumulator held, after [reset()] and the calls
    [add(x)], [add(x1)], ..., [value()] is the arithmetic mean of the
    values added; right after [reset()] it is the empty-state value 0. *)
Theorem value_is_arithmetic_mean s0 x xs :
  (value (add_all (x :: xs) (reset s0)) == arithmetic_mean (x :: xs))%Q
  /\ value (reset s0) = empty_value
  /\ (empty_value == 0)%Q.
Proof.
  split; [|split; reflexivity].
  destruct (add_all_sum (x :: xs) (reset s0)) as [Hc Hm].
  unfold value, arithmetic_mean. rewrite Hc in Hm.
  cbn [reset count mean Nat.add] in Hm.
  cbn [length] in *.
  pose proof (inject_S_nonzero (length xs)) as Hnz.
  apply (Qmult_inj_r _ _ _ Hnz). rewrite Hm.
  unfold empty_value. field. exact Hnz.
Qed.

End LossAccumulatorFacts.

Module AccuracyAccumulatorFacts.
Import AccuracyAccumulator.

Lemma hd_insert c l :
  hd_error (insert c l)
  = match hd_error l with
    | None => Some c
    | Some d => if Qle_bool (snd d) (snd c) then Some c else Some d
    end.
Proof.
  destruct l as [|d l]; cbn; [reflexivity|].
  destruct (Qle_bool (snd d) (snd c)); reflexivity.
Qed.

(** The best-ranked class is the arg-max. *)
Lemma ranked_head row : forall i,
  hd_error (fold_right insert [] (classes_from i row)) = argmax_from i row.
Proof.
  induction row as [|x row IH]; intros i; [reflexivity|].
  unfold classes_from. cbn [length seq combine fold_right].
  fold (classes_from (S i) row).
  rewrite hd_insert, IH. cbn [argmax_from].
  destruct (argmax_from (S i) row) as [[j t]|]; reflexivity.
Qed.

Lemma top1_is_argmax e : hit 1 e = argmax_correct e.
Proof.
  destruct e as [row l]. unfold hit, top_k, ranked, argmax_correct, argmax.
  cbn [fst snd]. rewrite <- (ranked_head row 0).
  destruct (fold_right insert [] (classes_from 0 row)) as [|[c q] rest];
    [reflexivity|].
  cbn. rewrite orb_false_r. apply Nat.eqb_sym.
Qed.

Lemma count_hits_app k es es' :
  count_hits k (es ++ es') = count_hits k es + count_hits k es'.
Proof. unfold count_hits. rewrite filter_app, length_app. reflexivity. Qed.

(** Adding batches counts the examples and the hits of all of them. *)
Lemma add_all_counts batches : forall s,
  add_all batches s
  = mk (seen s + length (all_examples batches))
       (map (fun kh =>
               (fst kh, snd kh + count_hits (fst kh) (all_examples batches)))
          (hits s)).
Proof.
  induction batches as [|b batches IH]; intros s.
  - destruct s as [n h]. cbn. rewrite Nat.add_0_r. f_equal.
    rewrite <- (map_id h) at 1. apply map_ext. intros [k c]. cbn.
    rewrite Nat.add_0_r. reflexivity.
  - cbn [add_all fold_left]. fold (add_all batches (add (fst b) (snd b) s)).
    rewrite IH. unfold add. cbn [seen hits all_examples flat_map].
    rewrite length_app, Nat.add_assoc. f_equal.
    rewrite map_map. apply map_ext. intros [k c]. cbn [fst snd].
    rewrite count_hits_app, Nat.add_assoc. reflexivity.
Qed.

(** C8: for an accumulator created with [topk=[1, 5]], whatever it was fed
    before the last reset, [value()] after the batches added since is the
    list of the two percentages, top-1 first and top-5 second; the top-1
    entry is 100 times the number of examples whose arg-max class is
    their label, over the number of examples. *)
Theorem value_top1_is_argmax_percentage before batches :
  let s := add_all batches (reset (add_all before (create [1; 5]))) in
  let es := all_examples batches in
  value s
  = [ percentage (length (filter argmax_correct es)) (length es);
      percentage (count_hits 5 es) (length es) ]
  /\ value s = map (value_at s) [1; 5].
Proof.
  cbv zeta. rewrite (add_all_counts batches), (add_all_counts before).
  unfold reset, create, value, value_at.
  cbn [hits seen map fst snd find Nat.eqb Nat.add].
  split; [|reflexivity].
  unfold count_hits at 1.
  rewrite (filter_ext _ _ top1_is_argmax). reflexivity.
Qed.

(** [reset()] forgets what was added and keeps the requested [k]. *)
Lemma accuracy_reset_add logits labels s : reset (add logits labels s) = reset s.
Proof.
  unfold reset, add. cbn [hits]. rewrite map_map. reflexivity.
Qed.

Lemma accuracy_reset_reset s : reset (reset s) = reset s.
Proof.
  unfold reset. cbn [hits]. rewrite map_map. reflexivity.
Qed.

End AccuracyAccumulatorFacts.

(** ** The toy run as an instance of the theorems *)

Module ToyFacts.

Local Abbreviation toy_globals := (Toy.globals Toy.val_set).
Local Abbreviation hard_globals := (Toy.globals Toy.hard_val_set).

(** The scheduler step of the second epoch of the toy run. *)
Lemma scheduler_step_once_per_epoch_witness :
  results Toy.world = empty_results
  /\ filter is_scheduler_step
       (epoch_events (G := toy_globals) Toy.world 1)
     = [EvSchedulerStep (val_loss_at (G := toy_globals) Toy.world 1)].
Proof.
  assert (H0 : results Toy.world = empty_results) by reflexivity.
  split; [exact H0|].
  exact (proj1 (scheduler_step_once_per_epoch (G := toy_globals)
                  Toy.world 1 H0)).
Defined.

(** The first epoch of the toy run writes the checkpoint; the second has
    the same validation accuracy and writes nothing. *)
Lemma checkpoint_iff_strictly_better_witness :
  results Toy.world = empty_results
  /\ checkpoint_written (G := toy_globals) Toy.world 0 = true
  /\ checkpoint_written (G := toy_globals) Toy.world 1 = false.
Proof.
  assert (H0 : results Toy.world = empty_results) by reflexivity.
  assert (Hw : checkpoint_written (G := toy_globals) Toy.world 0 = true)
    by (vm_compute; reflexivity).
  destruct (checkpoint_iff_strictly_better (G := toy_globals)
              Toy.world 0 H0) as (_ & _ & _ & _ & Hlater).
  split; [exact H0|]. split; [exact Hw|].
  refine (Hlater 1 _ Hw _); [lia|vm_compute; reflexivity].
Defined.

Lemma best_accuracy_never_decreases_witness :
  setup (S := Toy.startup 2 Toy.val_set) Toy.options
  = Done toy_globals Toy.world
  /\ best_accuracy Toy.world = 0%Q
  /\ (best_accuracy (world_after (G := toy_globals) 1 Toy.world)
      <= best_accuracy (world_after (G := toy_globals) 2 Toy.world))%Q.
Proof.
  assert (Hs : setup (S := Toy.startup 2 Toy.val_set) Toy.options
               = Done toy_globals Toy.world) by reflexivity.
  destruct (best_accuracy_never_decreases
              (S := Toy.startup 2 Toy.val_set) Toy.options
              toy_globals Toy.world Hs) as (Hb & _ & Hm & _).
  split; [exact Hs|]. split; [exact Hb|]. refine (Hm 1 2 _). lia.
Defined.

(** The accumulators of the spec forget at [reset()]. *)
Lemma toy_resets_forget : resets_forget (C := ToyMeters.collaborators).
Proof.
  split; [reflexivity|]. split; [reflexivity|].
  split; [exact AccuracyAccumulatorFacts.accuracy_reset_add|].
  split; [exact AccuracyAccumulatorFacts.accuracy_reset_reset|].
  split; reflexivity.
Qed.

(** The second epoch of the toy run with the accumulators' own resets: the
    meters it leaves are those of its test pass alone. *)
Lemma meters_reset_before_each_phase_witness :
  results ToyMeters.world = empty_results
  /\ resets_forget (C := ToyMeters.collaborators)
  /\ reset_before_phases
       (epoch_events (G := ToyMeters.globals) ToyMeters.world 1)
  /\ meters_of (world_after (G := ToyMeters.globals) 2 ToyMeters.world)
     = fed (params (train_phase (G := ToyMeters.globals)
                      (world_after (G := ToyMeters.globals) 1
                         ToyMeters.world)))
         (test_loader (Globals := ToyMeters.globals))
         (reset_all (meters_of ToyMeters.world)).
Proof.
  assert (H0 : results ToyMeters.world = empty_results) by reflexivity.
  destruct (meters_reset_before_each_phase (G := ToyMeters.globals)
              ToyMeters.world 1 H0) as (_ & Hr & _ & _ & Hf).
  split; [exact H0|]. split; [exact toy_resets_forget|].
  split; [exact Hr|].
  exact (proj2 (proj2 (proj2 (Hf toy_resets_forget)))).
Defined.

Lemma statistics_file_after_epoch_witness :
  results Toy.world = empty_results
  /\ train (G := toy_globals) (Z.of_nat 2) Toy.world
     = Done tt (world_after (G := toy_globals) 2 Toy.world).
Proof.
  assert (H0 : results Toy.world = empty_results) by reflexivity.
  split; [exact H0|].
  exact (proj1 (statistics_file_after_epoch (G := toy_globals)
                  Toy.world 1 H0)).
Defined.

Lemma evaluation_never_trains_witness :
  results Toy.world = empty_results
  /\ params (world_after (G := toy_globals) 2 Toy.world)
     = params (train_phase (G := toy_globals)
                 (world_after (G := toy_globals) 1 Toy.world)).
Proof.
  assert (H0 : results Toy.world = empty_results) by reflexivity.
  split; [exact H0|].
  exact (proj1 (proj2 (proj2 (evaluation_never_trains (G := toy_globals)
                                Toy.world 1 H0)))).
Defined.

(** Two device ids on a machine with one device. *)
Lemma too_many_devices_is_fatal_witness :
  (device_count (Startup := Toy.startup 1 Toy.val_set)
   < length (gpu_ids Toy.options))
  /\ 1 < length (gpu_ids Toy.options)
  /\ exists e w,
       main (S := Toy.startup 1 Toy.val_set) Toy.options = Raised e w
       /\ trace w = [].
Proof.
  assert (H1 : device_count (Startup := Toy.startup 1 Toy.val_set)
               < length (gpu_ids Toy.options)) by (cbn; lia).
  assert (H2 : 1 < length (gpu_ids Toy.options)) by (cbn; lia).
  destruct (too_many_devices_is_fatal
              (S := Toy.startup 1 Toy.val_set) Toy.options H1
              (or_introl H2))
    as (e & w & Hm & Ht & _).
  split; [exact H1|]. split; [exact H2|].
  exists e, w. split; assumption.
Defined.

(** On the hard validation set both epochs have accuracy 0. *)
Lemma zero_accuracy_never_saves_witness :
  run_start Toy.world
  /\ checkpoint_written (G := hard_globals) Toy.world 0 = false
  /\ filter is_save
       (new_events Toy.world (world_after (G := hard_globals) 2 Toy.world))
     = [].
Proof.
  assert (Hs : run_start Toy.world) by (split; reflexivity).
  destruct (zero_accuracy_never_saves (G := hard_globals) Toy.world Hs)
    as [H1 H2].
  split; [exact Hs|]. split.
  - refine (H1 0 _). vm_compute. reflexivity.
  - refine (proj1 (H2 2 _)). intros k Hk.
    destruct k as [|[|k]]; [vm_compute; reflexivity ..|lia].
Defined.

End ToyFacts.

Section HistoryFacts.

Context {C : Collaborators} {G : Globals}.

Local Abbreviation table9 c1 c2 c3 c4 c5 c6 c7 c8 c9 :=
  [ ("train_loss"%string, c1); ("train_top1_accuracy"%string, c2);
    ("train_top5_accuracy"%string, c3); ("val_loss"%string, c4);
    ("val_top1_accuracy"%string, c5); ("val_top5_accuracy"%string, c6);
    ("test_loss"%string, c7); ("test_top1_accuracy"%string, c8);
    ("test_top5_accuracy"%string, c9) ].

Ltac run_hooks :=
  cbv beta iota zeta delta
    [on_end_epoch log_phase save_best_model scheduler_step save_statistics
     results_append bind step get ret raise index acc_value topk
     reset_meters with_no_grad engine_test run_phase emit torch_save
     set_params set_opt_state set_sched_state set_training set_grad_enabled
     set_meter_loss set_meter_accuracy set_meter_confusion
     set_best_accuracy set_results set_files set_trace eval_pass
     params opt_state sched_state training grad_enabled meter_loss
     meter_accuracy meter_confusion best_accuracy results files trace
     map nth_error dict_append String.eqb Ascii.eqb Bool.eqb phase_name
     String.append negb].

(** The table [on_end_epoch] leaves in [results]. *)
Lemma on_end_epoch_results e w :
  table_of e (results w) ->
  exists w',
    on_end_epoch (S e) w = Done tt w'
    /\ results w' = append_row (epoch_metrics w) (results w)
    /\ training w'
       = match test_loader, val_loader with
         | [], [] => training w
         | _, _ => false
         end.
Proof.
  intros H. apply table_shape in H.
  destruct H as (c1&c2&c3&c4&c5&c6&c7&c8&c9&Hr&Hl).
  destruct w as [p o s tr ge ml ma mc b r f t]; cbn in Hr; subst.
  unfold epoch_metrics, append_row, phase_top, phase_loss, val_meter_loss,
    val_meter_accuracy.
  run_hooks. rewrite eval_fold. run_hooks.
  match goal with
  | |- context [Qgtb ?a ?b] => destruct (Qgtb a b) eqn:Hgt
  end;
  rewrite ?if_same;
  run_hooks;
  match goal with
  | |- context [plateau_step ?a ?b ?c] =>
      destruct (plateau_step a b c) as [s' o'] eqn:Hp
  end;
  rewrite eval_fold; run_hooks;
  rewrite (data_frame_grown _ _ _ _ _ _ _ _ _ _ _ _ _ _ _ _ _ _ _ Hl);
  eexists; (split; [reflexivity|]); cbn [combine map fst snd];
  (split; [reflexivity|]);
  destruct test_loader, val_loader; reflexivity.
Qed.

End HistoryFacts.

Section RunHistory.

Context {C : Collaborators} {G : Globals}.

Local Abbreviation table9 c1 c2 c3 c4 c5 c6 c7 c8 c9 :=
  [ ("train_loss"%string, c1); ("train_top1_accuracy"%string, c2);
    ("train_top5_accuracy"%string, c3); ("val_loss"%string, c4);
    ("val_top1_accuracy"%string, c5); ("val_top5_accuracy"%string, c6);
    ("test_loss"%string, c7); ("test_top1_accuracy"%string, c8);
    ("test_top5_accuracy"%string, c9) ].

(** What an epoch of a run adds to [results] and leaves as model mode. *)
Lemma results_step w0 k :
  results w0 = empty_results ->
  results (world_after (S k) w0)
  = append_row (row_at w0 k) (results (world_after k w0))
  /\ training (world_after (S k) w0)
     = match test_loader, val_loader with
       | [], [] => training (train_phase (world_after k w0))
       | _, _ => false
       end.
Proof.
  intros H0.
  destruct (train_completes k w0 H0) as [_ Ht].
  destruct (train_phase_run (world_after k w0)) as (_ & _ & _ & Hr & _).
  destruct (on_end_epoch_results k (train_phase (world_after k w0)))
    as (w' & Hrun & Hres & Htr).
  { rewrite Hr. exact Ht. }
  pose proof (world_after_S k w0 H0) as HS.
  unfold epoch_body, bind, step in HS. fold (train_phase (world_after k w0)) in HS.
  rewrite Hrun in HS. injection HS as <-.
  rewrite Hres, Hr. split; [reflexivity|exact Htr].
Qed.

Lemma history_table_snoc rows row :
  history_table (rows ++ [row]) = append_row row (history_table rows).
Proof. unfold history_table. rewrite fold_left_app. reflexivity. Qed.

(** The table of a history, column by column. *)
Lemma history_table_columns rows :
  Forall (fun row => length row = 9) rows ->
  history_table rows
  = table9 (map (fun row => nth 0 row 0%Q) rows)
      (map (fun row => nth 1 row 0%Q) rows)
      (map (fun row => nth 2 row 0%Q) rows)
      (map (fun row => nth 3 row 0%Q) rows)
      (map (fun row => nth 4 row 0%Q) rows)
      (map (fun row => nth 5 row 0%Q) rows)
      (map (fun row => nth 6 row 0%Q) rows)
      (map (fun row => nth 7 row 0%Q) rows)
      (map (fun row => nth 8 row 0%Q) rows).
Proof.
  induction rows as [|row rows IH] using rev_ind; intros Hlen.
  - reflexivity.
  - apply Forall_app in Hlen. destruct Hlen as [Hrows Hrow].
    inversion Hrow as [|? ? H9 _]; subst.
    rewrite history_table_snoc, (IH Hrows), !map_app.
    do 9 (destruct row as [|? row]; [discriminate H9|]).
    destruct row; [|discriminate H9]. reflexivity.
Qed.

(** After [n] epochs [results] holds the rows of these epochs, in order. *)
Lemma results_history w0 n :
  results w0 = empty_results ->
  results (world_after n w0) = history_table (map (row_at w0) (seq 0 n)).
Proof.
  intros H0. induction n as [|n IH].
  - rewrite world_after_0. exact H0.
  - destruct (results_step w0 n H0) as [Hr _].
    rewrite Hr, IH, seq_S, map_app. cbn [map Nat.add].
    rewrite history_table_snoc. reflexivity.
Qed.

Lemma rows_have_nine w0 n :
  Forall (fun row => length row = 9) (map (row_at w0) (seq 0 n)).
Proof.
  apply Forall_map. apply Forall_forall. intros k _. reflexivity.
Qed.

(** X1: after [n] epochs the columns [val_loss] and [val_top1_accuracy] of
    [results] hold, epoch by epoch, the losses the scheduler was stepped
    with and the accuracies the checkpoint test compared; every other
    column holds the readings of its pass in the same order. *)
Theorem results_record_the_run w0 n :
  results w0 = empty_results ->
  results (world_after n w0) = history_table (map (row_at w0) (seq 0 n))
  /\ column "val_loss" (results (world_after n w0))
     = Some (map (val_loss_at w0) (seq 0 n))
  /\ column "val_top1_accuracy" (results (world_after n w0))
     = Some (map (val_top1_at w0) (seq 0 n))
  /\ filter is_scheduler_step (new_events w0 (world_after n w0))
     = map (fun k => EvSchedulerStep (val_loss_at w0 k)) (seq 0 n).
Proof.
  intros H0. pose proof (results_history w0 n H0) as Hh.
  split; [exact Hh|].
  rewrite Hh, (history_table_columns _ (rows_have_nine w0 n)).
  cbn [column String.eqb Ascii.eqb Bool.eqb]. rewrite !map_map.
  split; [reflexivity|]. split; [reflexivity|].
  rewrite (new_events_app w0 (world_after n w0) _ (trace_of_run w0 n H0)).
  induction n as [|n IH]; [reflexivity|].
  rewrite seq_S, !map_app, concat_app, filter_app. cbn [map concat Nat.add].
  rewrite app_nil_r. f_equal.
  - apply IH. apply results_history. exact H0.
  - rewrite (epoch_events_flat w0 n H0). cbv zeta.
    unfold train_events, train_batch_events, eval_events, log_events.
    repeat (rewrite ?filter_app; cbn [filter is_scheduler_step app]).
    rewrite ?filter_repeat_none by reflexivity.
    rewrite ?filter_concat_repeat_none by reflexivity.
    cbn [app]. destruct (Qgtb _ _); reflexivity.
Qed.

Lemma running_best_snoc vs v :
  running_best (vs ++ [v])
  = if Qgtb v (running_best vs) then v else running_best vs.
Proof. unfold running_best. rewrite fold_left_app. reflexivity. Qed.

(** X2: the tracker of line 127 is the running maximum of the recorded
    validation top-1 accuracies: after [n] epochs [best_accuracy] is what
    the test of line 82 keeps of the column [val_top1_accuracy], from 0;
    it is one of the recorded accuracies or still the initial 0, and no
    recorded accuracy exceeds it. *)
Theorem best_accuracy_is_running_maximum w0 n :
  run_start w0 ->
  exists col,
    column "val_top1_accuracy" (results (world_after n w0)) = Some col
    /\ length col = n
    /\ best_accuracy (world_after n w0) = running_best col
    /\ (In (best_accuracy (world_after n w0)) col
        \/ best_accuracy (world_after n w0) = 0%Q)
    /\ Forall (fun v => (v <= best_accuracy (world_after n w0))%Q) col.
Proof.
  intros [Hb H0].
  exists (map (val_top1_at w0) (seq 0 n)).
  assert (Hcol : column "val_top1_accuracy" (results (world_after n w0))
                 = Some (map (val_top1_at w0) (seq 0 n))).
  { rewrite (results_history w0 n H0),
      (history_table_columns _ (rows_have_nine w0 n)).
    cbn [column String.eqb Ascii.eqb Bool.eqb]. rewrite map_map.
    reflexivity. }
  assert (Hrun : best_accuracy (world_after n w0)
                 = running_best (map (val_top1_at w0) (seq 0 n))).
  { induction n as [|n IH].
    - rewrite world_after_0. exact Hb.
    - rewrite seq_S, map_app. cbn [map Nat.add].
      rewrite running_best_snoc, (best_step w0 n H0), <- IH.
      + reflexivity.
      + rewrite (results_history w0 n H0),
          (history_table_columns _ (rows_have_nine w0 n)).
        cbn [column String.eqb Ascii.eqb Bool.eqb]. rewrite map_map.
        reflexivity. }
  split; [exact Hcol|]. split; [rewrite length_map, length_seq; reflexivity|].
  split; [exact Hrun|]. split.
  - clear Hcol Hrun. induction n as [|n IH].
    + right. rewrite world_after_0. exact Hb.
    + rewrite (best_step w0 n H0), seq_S, map_app. cbn [map Nat.add].
      destruct (Qgtb _ _).
      * left. apply in_or_app. right. left. reflexivity.
      * destruct IH as [IH|IH]; [left; apply in_or_app; left; exact IH|].
        right. exact IH.
  - apply Forall_map. apply Forall_forall. intros k Hk.
    apply in_seq in Hk.
    apply Qle_trans with (best_accuracy (world_after (S k) w0)).
    + rewrite (best_step w0 k H0). destruct (Qgtb _ _) eqn:E.
      * apply Qle_refl.
      * apply Qgtb_false. exact E.
    + apply best_mono; [exact H0|lia].
Qed.

(** *** The statistics file, row by row *)

Lemma nth_history_column w0 n i j :
  i < n ->
  nth i (map (fun row => nth j row 0%Q) (map (row_at w0) (seq 0 n))) 0%Q
  = nth j (row_at w0 i) 0%Q.
Proof.
  intros Hi. rewrite map_map.
  rewrite (nth_indep _ 0%Q (nth j (row_at w0 0) 0%Q))
    by (rewrite length_map, length_seq; exact Hi).
  rewrite (map_nth (fun k => nth j (row_at w0 k) 0%Q) (seq 0 n) 0 i).
  rewrite seq_nth by exact Hi. reflexivity.
Qed.

(** X3: the statistics file after [n >= 1] epochs has the row of each
    epoch [i + 1 <= n]: the index [i + 1] and, under the nine keys, the
    nine readings of that epoch.  The content of a row does not depend on
    [n]: a later rewrite of the file leaves the earlier rows as they
    were. *)
Theorem statistics_rows_are_stable w0 n :
  results w0 = empty_results ->
  0 < n ->
  exists df,
    statistics_frame w0 n = Some df
    /\ length (df_rows df) = n
    /\ (forall i, i < n ->
          df_row df i = (S i, combine result_keys (row_at w0 i)))
    /\ (forall m df', n <= m -> statistics_frame w0 m = Some df' ->
          forall i, i < n -> df_row df' i = df_row df i).
Proof.
  intros H0 Hn.
  assert (Hframe : forall m, 0 < m ->
            statistics_frame w0 m
            = Some (mkDataFrame (range1 m) (results (world_after m w0)))).
  { intros m Hm. destruct m as [|m]; [lia|].
    unfold statistics_frame. rewrite (files_step w0 m H0).
    rewrite fs_read_write_same. reflexivity. }
  assert (Hrow : forall m i, i < m ->
            df_row (mkDataFrame (range1 m) (results (world_after m w0))) i
            = (S i, combine result_keys (row_at w0 i))).
  { intros m i Hi. unfold df_row, range1. cbn [df_index df_columns].
    rewrite seq_nth by exact Hi.
    rewrite (results_history w0 m H0),
      (history_table_columns _ (rows_have_nine w0 m)).
    cbn [map fst snd]. rewrite !(nth_history_column w0 m i) by exact Hi.
    reflexivity. }
  exists (mkDataFrame (range1 n) (results (world_after n w0))).
  split; [apply Hframe; exact Hn|]. split.
  { unfold df_rows, range1. cbn [df_index].
    rewrite length_map, !length_seq. reflexivity. }
  split; [intros i Hi; apply Hrow; exact Hi|].
  intros m df' Hnm Hdf' i Hi.
  rewrite Hframe in Hdf' by lia. injection Hdf' as <-.
  rewrite !Hrow by lia. reflexivity.
Qed.

(** *** The checkpoint on disk *)

Lemma checkpoint_kept w0 k n :
  results w0 = empty_results ->
  k <= n ->
  (forall j, k <= j -> j < n -> checkpoint_written w0 j = false) ->
  fs_read (checkpoint_path DATA_TYPE MODEL_TYPE) (files (world_after n w0))
  = fs_read (checkpoint_path DATA_TYPE MODEL_TYPE) (files (world_after k w0))
  /\ best_accuracy (world_after n w0) = best_accuracy (world_after k w0).
Proof.
  intros H0 Hkn Hno. induction Hkn as [|n Hkn IH].
  - split; reflexivity.
  - assert (Hn : checkpoint_written w0 n = false) by (apply Hno; lia).
    destruct IH as [IHf IHb]; [intros j Hj1 Hj2; apply Hno; lia|].
    split.
    + rewrite (files_step w0 n H0), Hn.
      rewrite fs_read_write_other by apply paths_differ. exact IHf.
    + rewrite (best_step w0 n H0), <- (checkpoint_written_eq w0 n H0), Hn.
      exact IHb.
Qed.

(** X4: the checkpoint on disk goes with the stored best accuracy: when
    epoch [k + 1] was the last of the first [n] epochs to write it, the file
    holds the parameters that epoch was validated with, and
    [best_accuracy] is the validation top-1 accuracy they reached. *)
Theorem checkpoint_holds_best_weights w0 k n :
  results w0 = empty_results ->
  k < n ->
  checkpoint_written w0 k = true ->
  (forall j, k < j -> j < n -> checkpoint_written w0 j = false) ->
  fs_read (checkpoint_path DATA_TYPE MODEL_TYPE) (files (world_after n w0))
  = Some (CheckpointFile (params (train_phase (world_after k w0))))
  /\ best_accuracy (world_after n w0) = val_top1_at w0 k.
Proof.
  intros H0 Hkn Hw Hno.
  destruct (checkpoint_kept w0 (S k) n H0) as [Hf Hb];
    [lia|intros j Hj1 Hj2; apply Hno; lia|].
  rewrite Hf, Hb. split.
  - rewrite (files_step w0 k H0), Hw.
    rewrite fs_read_write_other by apply paths_differ.
    rewrite fs_read_write_same.
    destruct (world_step w0 k H0) as (_ & _ & Hp & _). rewrite Hp.
    reflexivity.
  - rewrite (best_step w0 k H0), <- (checkpoint_written_eq w0 k H0), Hw.
    reflexivity.
Qed.

Lemma filter_seq_S (f : nat -> bool) n :
  filter f (seq 0 (S n))
  = filter f (seq 0 n) ++ (if f n then [n] else []).
Proof. rewrite seq_S, filter_app. cbn. destruct (f n); reflexivity. Qed.

(** The tracker as the running best of the accuracies seen. *)
Lemma best_is_running_best w0 n :
  run_start w0 ->
  best_accuracy (world_after n w0)
  = running_best (map (val_top1_at w0) (seq 0 n)).
Proof.
  intros [Hb H0]. induction n as [|n IH].
  - rewrite world_after_0. exact Hb.
  - rewrite seq_S, map_app. cbn [map Nat.add].
    rewrite running_best_snoc, (best_step w0 n H0), <- IH. reflexivity.
Qed.

(** X5: over a run of [n] epochs [torch.save] is called once for each
    epoch whose validation top-1 accuracy exceeded the best accuracy
    stored before it, always on the one checkpoint path, and [to_csv]
    once per epoch, always on the one statistics path.  From a best
    accuracy of 0 these epochs are those whose accuracy exceeds the running
    best of the accuracies of the epochs before. *)
Theorem run_writes_per_epoch w0 n :
  results w0 = empty_results ->
  filter is_save (new_events w0 (world_after n w0))
  = map (fun _ => EvSave (checkpoint_path DATA_TYPE MODEL_TYPE))
      (improving_epochs w0 n)
  /\ filter is_to_csv (new_events w0 (world_after n w0))
     = repeat (EvToCsv (statistics_path DATA_TYPE MODEL_TYPE)) n
  /\ length (improving_epochs w0 n) <= n
  /\ (best_accuracy w0 = 0%Q ->
      forall k,
        improved w0 k
        = Qgtb (val_top1_at w0 k)
            (running_best (map (val_top1_at w0) (seq 0 k)))).
Proof.
  intros H0.
  rewrite (new_events_app w0 (world_after n w0) _ (trace_of_run w0 n H0)).
  split; [|split; [|split]].
  - induction n as [|n IH]; [reflexivity|].
    unfold improving_epochs in *. rewrite filter_seq_S, map_app, <- IH.
    rewrite seq_S, map_app, concat_app, filter_app. cbn [map concat Nat.add].
    rewrite app_nil_r, (saves_of_epoch w0 n H0). unfold improved.
    destruct (Qgtb _ _); reflexivity.
  - induction n as [|n IH]; [reflexivity|].
    rewrite seq_S, map_app, concat_app, filter_app, IH.
    cbn [map concat Nat.add]. rewrite app_nil_r.
    rewrite (epoch_events_flat w0 n H0). cbv zeta.
    unfold train_events, train_batch_events, eval_events, log_events.
    repeat (rewrite ?filter_app; cbn [filter is_to_csv app]).
    rewrite ?filter_repeat_none by reflexivity.
    rewrite ?filter_concat_repeat_none by reflexivity.
    cbn [app].
    replace (filter is_to_csv
               (if Qgtb (val_top1_at w0 n) (best_accuracy (world_after n w0))
                then [EvSave (checkpoint_path DATA_TYPE MODEL_TYPE)] else []))
      with (@nil Event) by (destruct (Qgtb _ _); reflexivity).
    cbn [app]. rewrite <- repeat_cons. reflexivity.
  - unfold improving_epochs.
    pose proof (filter_length_le (improved w0) (seq 0 n)) as H.
    rewrite length_seq in H. exact H.
  - intros Hb k. unfold improved.
    rewrite (best_is_running_best w0 k (conj Hb H0)). reflexivity.
Qed.

(** X6: [torch.no_grad()] does not leak and [engine.test] leaves the model
    in evaluation mode: after every epoch the gradient mode is the one the
    run started with, and the model is in evaluation mode as soon as the
    validation or the test loader holds a batch. *)
Theorem modes_after_an_epoch w0 k :
  results w0 = empty_results ->
  grad_enabled (world_after (S k) w0) = grad_enabled w0
  /\ (val_loader <> [] \/ test_loader <> [] ->
      training (world_after (S k) w0) = false).
Proof.
  intros H0. split; [apply grad_enabled_run; exact H0|].
  intros Hne. destruct (results_step w0 k H0) as [_ Ht]. rewrite Ht.
  destruct test_loader, val_loader; try reflexivity.
  destruct Hne as [H|H]; contradiction H; reflexivity.
Qed.

(** X10: an evaluation pass adds every batch of its loader once, in the
    loader's order, to the three meters: the loss and the output of the
    batch under the parameters the pass started with (model in evaluation
    mode); it touches neither the best accuracy, nor [results], nor the
    disk, nor the scheduler. *)
Theorem evaluation_pass_feeds_meters ph loader (w : World) :
  let w' :=
    with_no_grad (engine_test on_sample on_forward processor ph loader) w in
  meter_loss w' = fed_loss (params w) loader (meter_loss w)
  /\ meter_accuracy w' = fed_accuracy (params w) loader (meter_accuracy w)
  /\ meter_confusion w' = fed_confusion (params w) loader (meter_confusion w)
  /\ best_accuracy w' = best_accuracy w
  /\ results w' = results w
  /\ files w' = files w
  /\ sched_state w' = sched_state w.
Proof.
  unfold with_no_grad, engine_test, run_phase.
  rewrite eval_fold. destruct w. cbn. repeat split.
Qed.


End RunHistory.

(** ** Facts about the command line *)

Section GpuIdsFacts.

Variable int : string -> option Z.

Lemma split_pieces_length sep s :
  length (snd (split_pieces sep s)) = count_char sep s.
Proof.
  induction s as [|c s IH]; [reflexivity|].
  cbn [split_pieces count_char].
  destruct (split_pieces sep s) as [piece pieces].
  destruct (Ascii.eqb c sep); cbn in *; rewrite IH; reflexivity.
Qed.

Lemma split_length sep s : length (split sep s) = S (count_char sep s).
Proof.
  unfold split. pose proof (split_pieces_length sep s) as H.
  destruct (split_pieces sep s). cbn in *. rewrite H. reflexivity.
Qed.

Lemma join_cons sep piece piece' pieces :
  join sep (piece :: piece' :: pieces)
  = String.append piece (String sep (join sep (piece' :: pieces))).
Proof. reflexivity. Qed.

Lemma join_split sep s : join sep (split sep s) = s.
Proof.
  unfold split. induction s as [|c s IH]; [reflexivity|].
  cbn [split_pieces]. destruct (split_pieces sep s) as [piece pieces].
  destruct (Ascii.eqb c sep) eqn:E.
  - apply Ascii.eqb_eq in E. subst c. rewrite join_cons, IH. reflexivity.
  - destruct pieces as [|piece' pieces].
    + cbn in *. rewrite IH. reflexivity.
    + rewrite join_cons in *. cbn [String.append]. rewrite IH. reflexivity.
Qed.

Lemma int_each_length pieces ids :
  int_each int pieces = Some ids -> length ids = length pieces.
Proof.
  revert ids. induction pieces as [|p pieces IH]; intros ids H.
  - injection H as <-. reflexivity.
  - cbn in H. destruct (int p); [|discriminate].
    destruct (int_each int pieces) as [zs|]; [|discriminate].
    injection H as <-. cbn. rewrite (IH zs eq_refl). reflexivity.
Qed.

Lemma int_each_none pieces :
  int_each int pieces = None <-> exists p, In p pieces /\ int p = None.
Proof.
  induction pieces as [|p pieces IH]; cbn.
  - split; [discriminate|intros (p & [] & _)].
  - destruct (int p) as [z|] eqn:Ep.
    + destruct (int_each int pieces) as [zs|].
      * split; [discriminate|].
        intros (q & [<-|Hq] & Hn); [congruence|].
        assert (X : Some zs = None)
          by (apply IH; exists q; split; assumption).
        discriminate X.
      * split; [|reflexivity]. intros _.
        destruct (proj1 IH eq_refl) as (q & Hq & Hn).
        exists q. split; [right; exact Hq|exact Hn].
    + split; [|reflexivity]. intros _. exists p. split; [left; reflexivity|exact Ep].
Qed.

(** X7: [--gpu_ids] is cut at every comma and nothing else: the pieces,
    joined by commas, give the option back; when every piece is an integer
    there is one device id per piece, one more than there are commas, so
    [device_ids] is never empty and the run is a parallel one exactly when
    the option holds a comma; and the list is refused as soon as one piece
    is not an integer. *)
Theorem gpu_ids_one_per_piece GPU_IDS :
  join "," (split "," GPU_IDS) = GPU_IDS
  /\ (forall ids,
        parse_gpu_ids int GPU_IDS = Some ids ->
        length ids = S (count_char "," GPU_IDS)
        /\ ids <> []
        /\ ((1 <? length ids) = true <-> 0 < count_char "," GPU_IDS))
  /\ (parse_gpu_ids int GPU_IDS = None
      <-> exists piece, In piece (split "," GPU_IDS) /\ int piece = None).
Proof.
  split; [apply join_split|]. split; [|apply int_each_none].
  intros ids H. unfold parse_gpu_ids in H.
  apply int_each_length in H. rewrite split_length in H.
  split; [exact H|]. split.
  - intros ->. discriminate H.
  - rewrite H, Nat.ltb_lt. lia.
Qed.

End GpuIdsFacts.

(** ** More facts about [__main__] *)

Section SetupFacts.

Context {C : Collaborators} {S : Startup}.

(** X8: a start-up that reaches [engine.train] had a first device id
    that [model.to] accepted and, with more than one id, a machine
    reporting at least as many devices; the hooks then see the options'
    data type, model type and device ids and the loaders of
    [utils.load_data], and the run starts with the moved model, a best
    accuracy of 0, an empty [results], an empty log and the disk as it
    was. *)
Theorem setup_done_requires opt G w :
  setup opt = Done G w ->
  (exists d0 rest,
     gpu_ids opt = d0 :: rest
     /\ to_device (new_model opt) d0 = inr (params w)
     /\ (rest = [] \/ length (d0 :: rest) <= device_count))
  /\ DATA_TYPE = data_type opt
  /\ MODEL_TYPE = model_type opt
  /\ device_ids = gpu_ids opt
  /\ (train_loader, val_loader, test_loader)
     = load_data (data_type opt) (batch_size opt)
  /\ best_accuracy w = 0%Q
  /\ results w = empty_results
  /\ trace w = []
  /\ files w = disk.
Proof.
  unfold setup, new_model.
  destruct (load_data (data_type opt) (batch_size opt)) as [[tl vl] tel].
  destruct (gpu_ids opt) as [|d0 rest] eqn:Hids; [discriminate|].
  match goal with
  | |- context [to_device ?m d0] =>
      destruct (to_device m d0) as [e|m'] eqn:Hto
  end; [discriminate|].
  destruct (1 <? length (d0 :: rest)) eqn:H1;
    [destruct (length (d0 :: rest) <=? device_count) eqn:H2|];
    intros H; try discriminate H; injection H as <- <-; cbn;
    (split; [exists d0, rest; split; [reflexivity|]; split; [exact Hto|]
            |repeat split]).
  - right. apply Nat.leb_le. exact H2.
  - left. apply Nat.ltb_ge in H1. destruct rest; [reflexivity|cbn in H1; lia].
Qed.

End SetupFacts.

(** X9: runs of different data sets or models never share an output file:
    the checkpoint path and the statistics path each determine the pair
    (data type, model type), and no checkpoint path is a statistics
    path. *)
Theorem output_paths_are_distinct d m d' m' :
  (checkpoint_path d m = checkpoint_path d' m' -> d = d' /\ m = m')
  /\ (statistics_path d m = statistics_path d' m' -> d = d' /\ m = m')
  /\ checkpoint_path d m <> statistics_path d' m'.
Proof.
  split; [|split].
  - destruct d, m, d', m'; cbn; intros H;
      first [split; reflexivity | discriminate H].
  - destruct d, m, d', m'; cbn; intros H;
      first [split; reflexivity | discriminate H].
  - destruct d, m, d', m'; cbn; discriminate.
Qed.

(** ** The toy run as an instance of the further theorems *)

Module ToyHistory.

Local Abbreviation toy_globals := (Toy.globals Toy.val_set).

Lemma results_record_the_run_witness :
  results Toy.world = empty_results
  /\ column "val_loss" (results (world_after (G := toy_globals) 2 Toy.world))
     = Some (map (val_loss_at (G := toy_globals) Toy.world) (seq 0 2)).
Proof.
  assert (H0 : results Toy.world = empty_results) by reflexivity.
  split; [exact H0|].
  exact (proj1 (proj2 (results_record_the_run (G := toy_globals)
                         Toy.world 2 H0))).
Defined.

Lemma best_accuracy_is_running_maximum_witness :
  run_start Toy.world
  /\ exists col,
       column "val_top1_accuracy"
         (results (world_after (G := toy_globals) 2 Toy.world)) = Some col
       /\ best_accuracy (world_after (G := toy_globals) 2 Toy.world)
          = running_best col.
Proof.
  assert (Hs : run_start Toy.world) by (split; reflexivity).
  destruct (best_accuracy_is_running_maximum (G := toy_globals)
              Toy.world 2 Hs) as (col & Hc & _ & Hb & _).
  split; [exact Hs|]. exists col. split; assumption.
Defined.

Lemma statistics_rows_are_stable_witness :
  results Toy.world = empty_results
  /\ 0 < 2
  /\ exists df,
       statistics_frame (G := toy_globals) Toy.world 2 = Some df
       /\ length (df_rows df) = 2.
Proof.
  assert (H0 : results Toy.world = empty_results) by reflexivity.
  assert (H2 : 0 < 2) by lia.
  destruct (statistics_rows_are_stable (G := toy_globals) Toy.world 2 H0 H2)
    as (df & Hf & Hl & _).
  split; [exact H0|]. split; [exact H2|]. exists df. split; assumption.
Defined.

(** The first epoch of the toy run is its only improving one. *)
Lemma checkpoint_holds_best_weights_witness :
  results Toy.world = empty_results
  /\ checkpoint_written (G := toy_globals) Toy.world 0 = true
  /\ best_accuracy (world_after (G := toy_globals) 3 Toy.world)
     = val_top1_at (G := toy_globals) Toy.world 0.
Proof.
  assert (H0 : results Toy.world = empty_results) by reflexivity.
  assert (Hw : checkpoint_written (G := toy_globals) Toy.world 0 = true)
    by (vm_compute; reflexivity).
  assert (Hlt : 0 < 3) by lia.
  assert (Hno : forall j, 0 < j -> j < 3 ->
                  checkpoint_written (G := toy_globals) Toy.world j = false).
  { intros j Hj1 Hj2.
    destruct j as [|[|[|j]]]; [lia|vm_compute; reflexivity ..|lia]. }
  split; [exact H0|]. split; [exact Hw|].
  exact (proj2 (checkpoint_holds_best_weights (G := toy_globals)
                  Toy.world 0 3 H0 Hlt Hw Hno)).
Defined.

Lemma run_writes_per_epoch_witness :
  results Toy.world = empty_results
  /\ filter is_save
       (new_events Toy.world (world_after (G := toy_globals) 2 Toy.world))
     = map (fun _ => EvSave (checkpoint_path ucf101 stts_a))
         (improving_epochs (G := toy_globals) Toy.world 2)
  /\ filter is_to_csv
       (new_events Toy.world (world_after (G := toy_globals) 2 Toy.world))
     = repeat (EvToCsv (statistics_path ucf101 stts_a)) 2.
Proof.
  assert (H0 : results Toy.world = empty_results) by reflexivity.
  destruct (run_writes_per_epoch (G := toy_globals) Toy.world 2 H0)
    as (Hs & Hc & _).
  split; [exact H0|]. split; [exact Hs|exact Hc].
Defined.

Lemma modes_after_an_epoch_witness :
  results Toy.world = empty_results
  /\ grad_enabled (world_after (G := toy_globals) 2 Toy.world) = true
  /\ training (world_after (G := toy_globals) 2 Toy.world) = false.
Proof.
  assert (H0 : results Toy.world = empty_results) by reflexivity.
  destruct (modes_after_an_epoch (G := toy_globals) Toy.world 1 H0)
    as [Hg Ht].
  split; [exact H0|]. split; [exact Hg|].
  apply Ht. left. discriminate.
Defined.

Lemma gpu_ids_one_per_piece_witness :
  parse_gpu_ids ToyCli.int "0,1" = Some [0%Z; 1%Z]
  /\ length [0%Z; 1%Z] = S (count_char "," "0,1").
Proof.
  assert (H : parse_gpu_ids ToyCli.int "0,1" = Some [0%Z; 1%Z])
    by reflexivity.
  split; [exact H|].
  exact (proj1 (proj1 (proj2 (gpu_ids_one_per_piece ToyCli.int "0,1"))
                  [0%Z; 1%Z] H)).
Defined.


(** Two device ids on a machine with two devices. *)
Lemma setup_done_requires_witness :
  setup (S := Toy.startup 2 Toy.val_set) Toy.options
  = Done toy_globals Toy.world
  /\ best_accuracy Toy.world = 0%Q
  /\ device_ids (Globals := toy_globals) = gpu_ids Toy.options.
Proof.
  assert (Hs : setup (S := Toy.startup 2 Toy.val_set) Toy.options
               = Done toy_globals Toy.world) by reflexivity.
  destruct (setup_done_requires (S := Toy.startup 2 Toy.val_set)
              Toy.options toy_globals Toy.world Hs)
    as (_ & _ & _ & Hd & _ & Hb & _).
  split; [exact Hs|]. split; [exact Hb|exact Hd].
Defined.

End ToyHistory.
